(** * The training-loop orchestrator of [engine/engine_train.py]

    A shallow embedding of the class [Trainer]: its bookkeeping fields, the
    methods [train_one_epoch], [valid_one_epoch], [write_log] and [run], and
    the calls they make on their collaborators (model, EMA shadow, optimizer,
    scheduler, data loaders, mixing strategy, logger, metrics writer and
    checkpoint writer).

    Conventions of the embedding.
    - Python [int]s are [Z]; [%] on them is [Z.modulo] (both take the sign of
      the divisor) except that a zero divisor raises [ZeroDivisionError].
    - Python and NumPy floats are [pyfloat]: a rational, an infinity or NaN;
      NaN and the infinities propagate as in IEEE 754.  The rounding of a
      float format, and the order in which the numeric framework adds up
      the terms of a mean, are the framework's: each format comes with its
      [arith], which the collaborators supply (float32 for the tensor mean
      of a batch, binary64 for [np.mean]).
    - Tensors, the model weights and every other piece of collaborator state
      are opaque: they live in one abstract [World], and each collaborator
      call is a function on it.  Collaborators are taken to return normally.
    - A pass over a data loader is taken as a whole: the batches it yields
      do not depend on the calls made between them.
    - Each method is a computation in a state-and-exception monad that also
      lists, in program order, the calls made on the collaborators. *)

From Stdlib Require Import ZArith QArith List String Bool Lia Lqa.
From Stdlib Require Import Permutation.
Import ListNotations.

Local Open Scope Z_scope.

(** ** Floats *)

Module PyFloat.

Inductive pyfloat : Type :=
| NaN
| NegInf
| PosInf
| Num (q : Q).

Definition zero : pyfloat := Num 0.
Definition one : pyfloat := Num 1.

(** [a + b] *)
Definition fadd (a b : pyfloat) : pyfloat :=
  match a, b with
  | NaN, _ | _, NaN => NaN
  | PosInf, NegInf | NegInf, PosInf => NaN
  | PosInf, _ | _, PosInf => PosInf
  | NegInf, _ | _, NegInf => NegInf
  | Num x, Num y => Num (x + y)
  end.

(** [a / n] for an element count [n >= 1]. *)
Definition fdiv_count (a : pyfloat) (n : positive) : pyfloat :=
  match a with
  | Num x => Num (x / inject_Z (Z.pos n))
  | other => other
  end.

(** [a < b]; every comparison with NaN is false. *)
Definition flt (a b : pyfloat) : bool :=
  match a, b with
  | NaN, _ | _, NaN => false
  | _, NegInf => false
  | NegInf, _ => true
  | PosInf, _ => false
  | _, PosInf => true
  | Num x, Num y => negb (Qle_bool y x)
  end.

(** [a <= b] *)
Definition fle (a b : pyfloat) : bool :=
  match a, b with
  | NaN, _ | _, NaN => false
  | NegInf, _ => true
  | _, NegInf => false
  | _, PosInf => true
  | PosInf, _ => false
  | Num x, Num y => Qle_bool x y
  end.

(** [a > b] and [a >= b] *)
Definition fgt (a b : pyfloat) : bool := flt b a.
Definition fge (a b : pyfloat) : bool := fle b a.

Definition is_nan (a : pyfloat) : bool :=
  match a with NaN => true | _ => false end.

(** The same float value (rationals up to [Qeq]). *)
Definition same_value (a b : pyfloat) : Prop :=
  match a, b with
  | NaN, NaN | NegInf, NegInf | PosInf, PosInf => True
  | Num x, Num y => (x == y)%Q
  | _, _ => False
  end.

(** Membership of the closed interval [[0,1]]. *)
Definition in_unit_interval (a : pyfloat) : Prop :=
  match a with
  | Num x => (0 <= x)%Q /\ (x <= 1)%Q
  | _ => False
  end.

Definition in_unit_intervalb (a : pyfloat) : bool :=
  fle zero a && fle a one.

(** The order in which the terms of a sum are added: the term at a
    position, or the sum of two partial sums. *)
Inductive plan : Type :=
| Term (i : nat)
| Plus (a b : plan).

(** The positions a plan adds up, from left to right. *)
Fixpoint terms (p : plan) : list nat :=
  match p with
  | Term i => [i]
  | Plus a b => terms a ++ terms b
  end.

(** The arithmetic of a float format, as the numeric framework performs
    it: [round q] is the float that stands for the exact result [q] (an
    infinity when it overflows), and [sum_plan n] is the order in which the
    framework adds up [n] terms. *)
Record arith : Type := {
  round : Q -> pyfloat;
  sum_plan : nat -> plan
}.

(** An exact result, as stored in the format. *)
Definition round_to (A : arith) (a : pyfloat) : pyfloat :=
  match a with
  | Num q => round A q
  | other => other
  end.

(** The sum of the terms of [l] along a plan, each addition rounded. *)
Fixpoint sum_by (A : arith) (l : list pyfloat) (p : plan) : pyfloat :=
  match p with
  | Term i => nth i l zero
  | Plus a b => round_to A (fadd (sum_by A l a) (sum_by A l b))
  end.

(** [np.mean(l)] on a Python list of floats, and [t.mean()] on a float
    tensor: the sum over the count, both rounded; [0.0 / 0] is NaN on the
    empty sequence. *)
Definition mean (A : arith) (l : list pyfloat) : pyfloat :=
  match l with
  | [] => NaN
  | _ :: _ =>
      round_to A
        (fdiv_count (sum_by A l (sum_plan A (List.length l)))
           (Pos.of_nat (List.length l)))
  end.

(** The terms added one after the other, from the first to the last. *)
Fixpoint left_to_right (n : nat) : plan :=
  match n with
  | O => Term 0
  | S m =>
      match m with
      | O => Term 0
      | S _ => Plus (left_to_right m) (Term m)
      end
  end.

(** Arithmetic without rounding. *)
Definition exact : arith :=
  {| round := Num; sum_plan := left_to_right |}.

(** Rounding keeps a non-negative result below an integer bound [k <= N]:
    rounding is monotone and the integers up to [N] are floats of the
    format (up to 2^24 for float32, up to 2^53 for binary64). *)
Definition rounds_within (A : arith) (N : nat) : Prop :=
  forall (q : Q) (k : nat),
    (k <= N)%nat ->
    (0 <= q)%Q -> (q <= inject_Z (Z.of_nat k))%Q ->
    exists q' : Q,
      round A q = Num q' /\
      (0 <= q')%Q /\ (q' <= inject_Z (Z.of_nat k))%Q.

(** A sum of [n] terms adds each of them once. *)
Definition adds_every_term (A : arith) : Prop :=
  forall n : nat, (0 < n)%nat -> Permutation (terms (sum_plan A n)) (seq 0 n).

(** An arithmetic whose means can be trusted up to [N] terms. *)
Definition sound_up_to (A : arith) (N : nat) : Prop :=
  rounds_within A N /\ adds_every_term A.

(** [t.float()] on a boolean tensor. *)
Definition bool_to_float (b : bool) : pyfloat :=
  if b then one else zero.

End PyFloat.
Import PyFloat.

(** ** Collaborators *)

(** [self.model] and [self.model_ema]. *)
Inductive model_ref : Type := Live | Ema.

(** [self.train_loader] and [self.valid_loader]. *)
Inductive loader_ref : Type := TrainLoader | ValidLoader.

(** The two best-metric fields of the trainer. *)
Inductive best_slot : Type := BestModel | BestModelEma.

(** What the trainer needs of the framework and of [utils].  Operations that
    may read or change collaborator state take and return the [World]. *)
Record Collaborators : Type := {
  World : Type;
  Inputs : Type;
  Targets : Type;
  Logits : Type;
  LossT : Type;
  MixMode : Type;
  Lam : Type;
  (** one pass over a loader: the batches it yields *)
  iter_loader : loader_ref -> World -> list (Inputs * Targets) * World;
  (** [t.to(self.device)] *)
  inputs_to_device : Inputs -> Inputs;
  targets_to_device : Targets -> Targets;
  (** [self.mix.forward(inputs, targets)] *)
  mix_forward :
    Inputs -> Targets -> World ->
    (MixMode * Inputs * Targets * Targets * Lam) * World;
  (** [self.mix.mix_criterion(mode, self.criterion, logits, a, b, lam)]:
      the second argument is the criterion handed over, which the mixing
      strategy may call *)
  mix_criterion :
    MixMode -> (Logits -> Targets -> World -> LossT * World) ->
    Logits -> Targets -> Targets -> Lam -> World -> LossT * World;
  (** [self.criterion(logits, targets)] *)
  criterion : Logits -> Targets -> World -> LossT * World;
  (** [model(inputs)] *)
  model_call : model_ref -> Inputs -> World -> Logits * World;
  (** [loss.detach().item()] *)
  loss_item : LossT -> pyfloat;
  (** [logits.argmax(dim=-1) == targets], as the sequence of its entries *)
  correct_mask : Logits -> Targets -> list bool;
  (** [self.model.train()], [model.eval()] *)
  model_train : World -> World;
  model_eval : model_ref -> World -> World;
  (** [self.optimizer.zero_grad()], [loss.backward()],
      [self.optimizer.step()], [self.model_ema.update()] *)
  optimizer_zero_grad : World -> World;
  loss_backward : LossT -> World -> World;
  optimizer_step : World -> World;
  model_ema_update : World -> World;
  (** the learning rate of the first parameter group of [self.optimizer] *)
  optimizer_lr : World -> pyfloat;
  (** [self.scheduler.step(n)] *)
  scheduler_step : Z -> World -> World;
  (** the arithmetic of float32 tensors ([t.float().mean()]) and of
      binary64 ([np.mean]) *)
  float32 : arith;
  float64 : arith
}.

(** ** Calls and outputs, in program order *)

(** Arguments of the [logger.info] calls; the text is their formatting. *)
Inductive log_msg : Type :=
| MsgTraining                       (* the Training banner *)
| MsgValidation                     (* the Validation banner *)
| MsgTrainIter (epoch batch_idx n_batches : Z)
               (percent loss acc lr : pyfloat)
| MsgFinish (acc loss : pyfloat)    (* Finish, Accuracy: .., Loss: .. *)
| MsgRule.                          (* a rule of 80 equals signs *)

(** Entries to the trainer's own methods, with their arguments. *)
Inductive method_call : Type :=
| CallTrainOneEpoch (epoch : Z)
| CallValidOneEpoch (epoch : Z) (isEMA : bool)
| CallWriteLog (epoch : Z).

(** The calls made, and two kinds of marks that the program does not output
    but that locate its steps: [EvCall] at the entry of a method of the
    trainer and [EvCompareBest] at the evaluation of
    [accuracy > self.best_..._metric] in [run]. *)
Inductive event : Type :=
| EvCall (c : method_call)
| EvLoggerInfo (m : log_msg)
| EvModelTrain
| EvModelEval (m : model_ref)
| EvNoGradEnter
| EvNoGradExit
| EvIterLoader (l : loader_ref)
| EvMixForward
| EvModelCall (m : model_ref)
| EvMixCriterion
| EvCriterion
| EvZeroGrad
| EvBackward
| EvOptimizerStep
| EvEmaUpdate
| EvAddScalar (tag : string) (value : pyfloat) (step : Z)
| EvSchedulerStep (n : Z)
| EvGcCollect
| EvCompareBest (slot : best_slot) (acc best : pyfloat)
| EvSaveCheckpoint (epoch : Z) (is_best is_ema_best : bool)
                   (best_model_metric best_model_ema_metric : pyfloat).

(** ** The trainer's own fields *)

(** The fields of [Trainer] that hold values.  The fields that hold the
    collaborators ([model], [model_ema], the loaders, [mix], [criterion],
    [optimizer], [scheduler], [gradient_scaler], [writer], [opts],
    [device]) are references that no method reassigns; what they refer to
    lives in the [World]. *)
Record Trainer : Type := {
  save_dir : string;
  start_epoch : Z;
  max_epoch : Z;
  device_type : string;
  profile_first : bool;
  enable_mix_precision : bool;
  best_model_metric : pyfloat;
  best_model_ema_metric : pyfloat;
  log_iter : Z;
  log_freq : Z
}.

(** [self.log_iter = v] *)
Definition set_log_iter (t : Trainer) (v : Z) : Trainer :=
  {| save_dir := save_dir t;
     start_epoch := start_epoch t;
     max_epoch := max_epoch t;
     device_type := device_type t;
     profile_first := profile_first t;
     enable_mix_precision := enable_mix_precision t;
     best_model_metric := best_model_metric t;
     best_model_ema_metric := best_model_ema_metric t;
     log_iter := v;
     log_freq := log_freq t |}.

(** [self.best_model_metric = v] and [self.best_model_ema_metric = v] *)
Definition set_best (t : Trainer) (slot : best_slot) (v : pyfloat)
  : Trainer :=
  {| save_dir := save_dir t;
     start_epoch := start_epoch t;
     max_epoch := max_epoch t;
     device_type := device_type t;
     profile_first := profile_first t;
     enable_mix_precision := enable_mix_precision t;
     best_model_metric :=
       match slot with BestModel => v | BestModelEma => best_model_metric t
       end;
     best_model_ema_metric :=
       match slot with
       | BestModel => best_model_ema_metric t
       | BestModelEma => v
       end;
     log_iter := log_iter t;
     log_freq := log_freq t |}.

Definition get_best (t : Trainer) (slot : best_slot) : pyfloat :=
  match slot with
  | BestModel => best_model_metric t
  | BestModelEma => best_model_ema_metric t
  end.

Definition default (A : Type) (d : A) (o : option A) : A :=
  match o with Some a => a | None => d end.

(** [Trainer.__init__], for the fields above: [start_epoch], [max_epoch]
    and [device_type] default to 0, 50 and cpu; the options
    [common.profile_first], [common.mixed_precision] and [common.log_freq]
    to False, True and 100; the two best metrics to 0 unless passed as
    keyword arguments; [log_iter] starts at 0. *)
Definition Trainer_init (save_dir' : string)
    (start_epoch' max_epoch' : option Z) (device_type' : option string)
    (opts_profile_first opts_mixed_precision : option bool)
    (opts_log_freq : option Z)
    (kw_best_model_metric kw_best_model_ema_metric : option pyfloat)
  : Trainer :=
  {| save_dir := save_dir';
     start_epoch := default Z 0 start_epoch';
     max_epoch := default Z 50 max_epoch';
     device_type := default string "cpu"%string device_type';
     profile_first := default bool false opts_profile_first;
     enable_mix_precision := default bool true opts_mixed_precision;
     best_model_metric := default pyfloat zero kw_best_model_metric;
     best_model_ema_metric := default pyfloat zero kw_best_model_ema_metric;
     log_iter := 0;
     log_freq := default Z 100 opts_log_freq |}.

(** The dictionary of the two epoch means, keyed Accuracy and Loss. *)
Record Metrics : Type := {
  Accuracy : pyfloat;
  Loss : pyfloat
}.

(** ** The monad *)

Inductive exn : Type := ZeroDivisionError.

Inductive result (A : Type) : Type :=
| Ok (a : A)
| Raise (e : exn).
Arguments Ok {A} a.
Arguments Raise {A} e.

Section Engine.

Context (C : Collaborators).

Record state : Type := {
  self : Trainer;
  world : World C
}.

(** A computation: the calls it makes, its result, the state it leaves. *)
Definition M (A : Type) : Type := state -> list event * result A * state.

Definition ret {A} (a : A) : M A := fun s => ([], Ok a, s).

Definition bind {A B} (m : M A) (f : A -> M B) : M B :=
  fun s =>
    match m s with
    | (ev1, Ok a, s1) =>
        match f a s1 with
        | (ev2, r, s2) => (ev1 ++ ev2, r, s2)
        end
    | (ev1, Raise e, s1) => (ev1, Raise e, s1)
    end.

Definition raise {A} (e : exn) : M A := fun s => ([], Raise e, s).

Definition emit (e : event) : M unit := fun s => ([e], Ok tt, s).

(** A collaborator call that returns a value. *)
Definition call {A} (e : event) (f : World C -> A * World C) : M A :=
  fun s =>
    let (a, w) := f (world s) in
    ([e], Ok a, {| self := self s; world := w |}).

(** A collaborator call made for its effect. *)
Definition act (e : event) (f : World C -> World C) : M unit :=
  fun s => ([e], Ok tt, {| self := self s; world := f (world s) |}).

(** Reading collaborator state. *)
Definition peek {A} (f : World C -> A) : M A :=
  fun s => ([], Ok (f (world s)), s).

Definition get_self : M Trainer := fun s => ([], Ok (self s), s).

Definition put_self (t : Trainer) : M unit :=
  fun s => ([], Ok tt, {| self := t; world := world s |}).

End Engine.

Arguments ret {C A} a.
Arguments bind {C A B} m f.
Arguments raise {C A} e.
Arguments emit {C} e.
Arguments call {C A} e f.
Arguments act {C} e f.
Arguments peek {C A} f.
Arguments get_self {C}.
Arguments put_self {C} t.
Arguments self {C} s.
Arguments world {C} s.

Declare Scope engine_scope.
Delimit Scope engine_scope with engine.
Notation "x <- m ;; k" := (bind m (fun x => k))
  (at level 61, m at next level, right associativity) : engine_scope.
Notation "' p <- m ;; k" := (bind m (fun p => k))
  (at level 61, p pattern, m at next level, right associativity)
  : engine_scope.
Notation "m ;; k" := (bind m (fun _ => k))
  (at level 61, right associativity) : engine_scope.

(** ** The methods of [Trainer] *)

Section Methods.

Context (C : Collaborators).

Local Open Scope engine_scope.

Definition logger_info (m : log_msg) : M C unit := emit (EvLoggerInfo m).

Definition writer_add_scalar (tag : string) (v : pyfloat) (step : Z)
  : M C unit :=
  emit (EvAddScalar tag v step).

(** [a % b] on ints. *)
Definition py_mod (a b : Z) : M C Z :=
  if b =? 0 then raise ZeroDivisionError else ret (a mod b).

(** [x / n] for a float [x] and an int [n]. *)
Definition py_truediv (x : Q) (n : Z) : M C pyfloat :=
  if n =? 0 then raise ZeroDivisionError else ret (Num (x / inject_Z n)).

(** [(logits.argmax(dim=-1) == targets).float().mean().detach().item()] *)
Definition batch_accuracy (logits : Logits C) (targets : Targets C)
  : pyfloat :=
  mean (float32 C) (map bool_to_float (correct_mask C logits targets)).

(** [np.mean(history)] *)
Definition np_mean (history : list pyfloat) : pyfloat :=
  mean (float64 C) history.

(** [a] is the accuracy of [batch] for some output of the model. *)
Definition accuracy_of_batch (batch : Inputs C * Targets C) (a : pyfloat)
  : Prop :=
  exists logits : Logits C,
    a = batch_accuracy logits (targets_to_device C (snd batch)).

(** [batch] holds at least one sample and at most [N]: whatever the model
    returns for it, the tensor of correctness indicators has between 1 and
    [N] entries. *)
Definition has_samples (N : nat) (batch : Inputs C * Targets C) : Prop :=
  forall logits : Logits C,
    correct_mask C logits (targets_to_device C (snd batch)) <> [] /\
    (List.length (correct_mask C logits (targets_to_device C (snd batch)))
     <= N)%nat.

(** One iteration of the loop of [train_one_epoch] (lines 90-146), on the
    batch [batch] at position [batch_idx] of a loader of [n_batches]
    batches, with the two histories collected so far. *)
Definition train_batch (epoch n_batches batch_idx : Z)
    (batch : Inputs C * Targets C) (hist : list pyfloat * list pyfloat)
  : M C (list pyfloat * list pyfloat) :=
  let '(loss_history, acc_history) := hist in
  lr <- peek (optimizer_lr C) ;;
  let '(inputs, targets) := batch in
  let inputs := inputs_to_device C inputs in
  let targets := targets_to_device C targets in
  ' (mode, inputs, target_a, target_b, lam) <-
    call EvMixForward (mix_forward C inputs targets) ;;
  logits <- call (EvModelCall Live) (model_call C Live inputs) ;;
  loss <-
    call EvMixCriterion
      (mix_criterion C mode (criterion C) logits target_a target_b lam) ;;
  act EvZeroGrad (optimizer_zero_grad C) ;;
  act EvBackward (loss_backward C loss) ;;
  act EvOptimizerStep (optimizer_step C) ;;
  act EvEmaUpdate (model_ema_update C) ;;
  let loss_history := loss_history ++ [loss_item C loss] in
  let acc_history := acc_history ++ [batch_accuracy logits targets] in
  t <- get_self ;;
  r <- py_mod (log_iter t) (log_freq t) ;;
  (if r =? 0 then
     writer_add_scalar "Train/Accuracy_iter"%string (last acc_history NaN)
       (log_iter t) ;;
     writer_add_scalar "Train/Loss_iter"%string (last loss_history NaN)
       (log_iter t) ;;
     percent <- py_truediv (100 * inject_Z batch_idx) n_batches ;;
     logger_info
       (MsgTrainIter epoch batch_idx n_batches percent
          (np_mean loss_history) (np_mean acc_history) lr)
   else ret tt) ;;
  t <- get_self ;;
  put_self (set_log_iter t (log_iter t + 1)) ;;
  ret (loss_history, acc_history).

(** [for batch_idx, batch in enumerate(self.train_loader)], from position
    [batch_idx] on. *)
Fixpoint train_loop (epoch n_batches batch_idx : Z)
    (batches : list (Inputs C * Targets C))
    (hist : list pyfloat * list pyfloat)
  : M C (list pyfloat * list pyfloat) :=
  match batches with
  | [] => ret hist
  | batch :: rest =>
      hist' <- train_batch epoch n_batches batch_idx batch hist ;;
      train_loop epoch n_batches (batch_idx + 1) rest hist'
  end.

(** [Trainer.train_one_epoch].  [len(self.train_loader)] is the number of
    batches the loader yields. *)
Definition train_one_epoch (epoch : Z) : M C Metrics :=
  emit (EvCall (CallTrainOneEpoch epoch)) ;;
  logger_info MsgTraining ;;
  act EvModelTrain (model_train C) ;;
  batches <- call (EvIterLoader TrainLoader) (iter_loader C TrainLoader) ;;
  ' (loss_history, acc_history) <-
    train_loop epoch (Z.of_nat (List.length batches)) 0 batches ([], []) ;;
  let metric_acc := np_mean acc_history in
  let metric_loss := np_mean loss_history in
  logger_info (MsgFinish metric_acc metric_loss) ;;
  ret {| Accuracy := metric_acc; Loss := metric_loss |}.

(** The model [valid_one_epoch] evaluates (line 158). *)
Definition select_model (isEMA : bool) : model_ref :=
  if isEMA then Live else Ema.

(** One iteration of the loop of [valid_one_epoch] (lines 165-179). *)
Definition valid_batch (model : model_ref) (batch : Inputs C * Targets C)
    (hist : list pyfloat * list pyfloat)
  : M C (list pyfloat * list pyfloat) :=
  let '(loss_history, acc_history) := hist in
  let '(inputs, targets) := batch in
  let inputs := inputs_to_device C inputs in
  let targets := targets_to_device C targets in
  logits <- call (EvModelCall model) (model_call C model inputs) ;;
  loss <- call EvCriterion (criterion C logits targets) ;;
  let loss_history := loss_history ++ [loss_item C loss] in
  let acc_history := acc_history ++ [batch_accuracy logits targets] in
  ret (loss_history, acc_history).

Fixpoint valid_loop (model : model_ref)
    (batches : list (Inputs C * Targets C))
    (hist : list pyfloat * list pyfloat)
  : M C (list pyfloat * list pyfloat) :=
  match batches with
  | [] => ret hist
  | batch :: rest =>
      hist' <- valid_batch model batch hist ;;
      valid_loop model rest hist'
  end.

(** [Trainer.valid_one_epoch] *)
Definition valid_one_epoch (epoch : Z) (isEMA : bool) : M C Metrics :=
  emit (EvCall (CallValidOneEpoch epoch isEMA)) ;;
  let model := select_model isEMA in
  logger_info MsgValidation ;;
  act (EvModelEval model) (model_eval C model) ;;
  emit EvNoGradEnter ;;
  batches <- call (EvIterLoader ValidLoader) (iter_loader C ValidLoader) ;;
  ' (loss_history, acc_history) <- valid_loop model batches ([], []) ;;
  emit EvNoGradExit ;;
  let metric_acc := np_mean acc_history in
  let metric_loss := np_mean loss_history in
  logger_info (MsgFinish metric_acc metric_loss) ;;
  ret {| Accuracy := metric_acc; Loss := metric_loss |}.

(** [Trainer.write_log] *)
Definition write_log (epoch : Z) (lr : pyfloat)
    (train_metric valid_metric valid_ema_metric : Metrics) : M C unit :=
  emit (EvCall (CallWriteLog epoch)) ;;
  writer_add_scalar "Learing rate"%string lr epoch ;;
  writer_add_scalar "Train/Accuracy"%string (Accuracy train_metric) epoch ;;
  writer_add_scalar "Train/Loss"%string (Loss train_metric) epoch ;;
  writer_add_scalar "Valid/Accuracy"%string (Accuracy valid_metric) epoch ;;
  writer_add_scalar "Valid/Loss"%string (Loss valid_metric) epoch ;;
  writer_add_scalar "Valid/EMA_Accuracy"%string
    (Accuracy valid_ema_metric) epoch ;;
  writer_add_scalar "Valid/EMA_Loss"%string (Loss valid_ema_metric) epoch.

(** The best-metric check of [run], lines 243-246 for [BestModel] and
    248-251 for [BestModelEma]: the new value of [is_best]. *)
Definition check_best (slot : best_slot) (acc : pyfloat) : M C bool :=
  t <- get_self ;;
  emit (EvCompareBest slot acc (get_best t slot)) ;;
  if fgt acc (get_best t slot)
  then put_self (set_best t slot acc) ;; ret true
  else ret false.

(** The body of the epoch loop of [run] (lines 229-274). *)
Definition run_epoch (epoch : Z) : M C unit :=
  act (EvSchedulerStep (epoch + 1)) (scheduler_step C (epoch + 1)) ;;
  logger_info MsgRule ;;
  train_metrics <- train_one_epoch epoch ;;
  valid_metrics <- valid_one_epoch epoch false ;;
  valid_ema_metrics <- valid_one_epoch epoch true ;;
  emit EvGcCollect ;;
  is_best <- check_best BestModel (Accuracy valid_metrics) ;;
  is_ema_best <- check_best BestModelEma (Accuracy valid_ema_metrics) ;;
  t <- get_self ;;
  emit (EvSaveCheckpoint epoch is_best is_ema_best
          (best_model_metric t) (best_model_ema_metric t)) ;;
  lr <- peek (optimizer_lr C) ;;
  write_log epoch lr train_metrics valid_metrics valid_ema_metrics ;;
  logger_info MsgRule.

(** [range(a, b)] *)
Definition py_range (a b : Z) : list Z :=
  map (fun i => a + Z.of_nat i) (seq 0 (Z.to_nat (b - a))).

(** [for x in l: body(x)] *)
Fixpoint for_each {A : Type} (l : list A) (body : A -> M C unit)
  : M C unit :=
  match l with
  | [] => ret tt
  | x :: rest => body x ;; for_each rest body
  end.

(** [Trainer.run] *)
Definition run : M C unit :=
  act EvZeroGrad (optimizer_zero_grad C) ;;
  act EvOptimizerStep (optimizer_step C) ;;
  t <- get_self ;;
  for_each (py_range (start_epoch t) (max_epoch t)) run_epoch.

End Methods.

Arguments train_batch {C}.
Arguments train_loop {C}.
Arguments train_one_epoch {C}.
Arguments valid_batch {C}.
Arguments valid_loop {C}.
Arguments valid_one_epoch {C}.
Arguments write_log {C}.
Arguments check_best {C}.
Arguments run_epoch {C}.
Arguments for_each {C A}.
Arguments run {C}.
Arguments batch_accuracy {C}.
Arguments np_mean : clear implicits.
Arguments accuracy_of_batch {C}.
Arguments has_samples {C}.

(** ** Outcomes of a computation *)

Definition events_of {C A} (o : list event * result A * state C)
  : list event := fst (fst o).

Definition result_of {C A} (o : list event * result A * state C)
  : result A := snd (fst o).

Definition state_of {C A} (o : list event * result A * state C)
  : state C := snd o.

(** A stored value [after] that is the value [before] or strictly greater. *)
Definition same_or_greater (before after : pyfloat) : Prop :=
  after = before \/ fgt after before = true.

(** Both stored bests of [s] are [b] and [be] or strictly greater. *)
Definition bests_from (b be : pyfloat) {C} (s : state C) : Prop :=
  same_or_greater b (best_model_metric (self s)) /\
  same_or_greater be (best_model_ema_metric (self s)).

(** The logging claim in the words of the specification: the value [v]
    reaches the metrics sink; the accuracy, loss and learning rate reach the
    text log in one message; all three reach both. *)
Definition sink_receives (evs : list event) (v : pyfloat) : Prop :=
  exists tag v' step,
    In (EvAddScalar tag v' step) evs /\ same_value v' v.

Definition text_log_receives (evs : list event) (acc loss lr : pyfloat)
  : Prop :=
  exists epoch idx n percent l a r,
    In (EvLoggerInfo (MsgTrainIter epoch idx n percent l a r)) evs /\
    same_value a acc /\ same_value l loss /\ same_value r lr.

Definition logs_instantaneous_values_to_both (evs : list event)
    (acc loss lr : pyfloat) : Prop :=
  sink_receives evs acc /\ sink_receives evs loss /\ sink_receives evs lr /\
  text_log_receives evs acc loss lr.

(** ** Views of a list of calls *)

(** The forward pass and the four update calls of a training batch. *)
Definition is_step_event (e : event) : bool :=
  match e with
  | EvModelCall _ | EvZeroGrad | EvBackward | EvOptimizerStep
  | EvEmaUpdate => true
  | _ => false
  end.

(** What one training batch contributes to that view, in program order. *)
Definition batch_steps : list event :=
  [EvModelCall Live; EvZeroGrad; EvBackward; EvOptimizerStep; EvEmaUpdate].

(** Every collaborator call of one training batch other than logging. *)
Definition batch_calls : list event :=
  [EvMixForward; EvModelCall Live; EvMixCriterion;
   EvZeroGrad; EvBackward; EvOptimizerStep; EvEmaUpdate].

(** The phases of one epoch of [run]. *)
Inductive phase : Type :=
| PhSchedulerStep (n : Z)
| PhTrain (epoch : Z)
| PhValid (epoch : Z) (isEMA : bool)
| PhGc
| PhCompare (slot : best_slot)
| PhSave (epoch : Z)
| PhLog (epoch : Z).

Definition phase_of (e : event) : list phase :=
  match e with
  | EvSchedulerStep n => [PhSchedulerStep n]
  | EvCall (CallTrainOneEpoch epoch) => [PhTrain epoch]
  | EvCall (CallValidOneEpoch epoch isEMA) => [PhValid epoch isEMA]
  | EvGcCollect => [PhGc]
  | EvCompareBest slot _ _ => [PhCompare slot]
  | EvSaveCheckpoint epoch _ _ _ _ => [PhSave epoch]
  | EvCall (CallWriteLog epoch) => [PhLog epoch]
  | _ => []
  end.

Definition phases (evs : list event) : list phase := flat_map phase_of evs.

(** The phases of epoch [epoch], in the order of the loop body. *)
Definition epoch_phases (epoch : Z) : list phase :=
  [PhSchedulerStep (epoch + 1); PhTrain epoch;
   PhValid epoch false; PhValid epoch true; PhGc;
   PhCompare BestModel; PhCompare BestModelEma;
   PhSave epoch; PhLog epoch].

(** The checkpoints requested. *)
Definition checkpoint_of (e : event)
  : list (Z * bool * bool * pyfloat * pyfloat) :=
  match e with
  | EvSaveCheckpoint epoch b be m me => [(epoch, b, be, m, me)]
  | _ => []
  end.

Definition checkpoints (evs : list event) := flat_map checkpoint_of evs.

(** The models put in a mode or called. *)
Definition model_of (e : event) : list model_ref :=
  match e with
  | EvModelTrain => [Live]
  | EvModelEval m => [m]
  | EvModelCall m => [m]
  | _ => []
  end.

Definition models_used (evs : list event) := flat_map model_of evs.

(** Calls that change the mode of a model, the weights, the optimizer, the
    scheduler, or write to the metrics sink or the checkpoint store. *)
Definition is_mutation (e : event) : bool :=
  match e with
  | EvModelTrain | EvModelEval _ | EvZeroGrad | EvBackward
  | EvOptimizerStep | EvEmaUpdate | EvSchedulerStep _
  | EvAddScalar _ _ _ | EvSaveCheckpoint _ _ _ _ _ => true
  | _ => false
  end.

(** ** A small concrete set of collaborators

    One sample per batch; the live model predicts the class equal to its
    input, the EMA model always predicts class 0; the loss of a batch is the
    distance between prediction and target plus 2, and the mixing strategy
    applies the criterion it is given to the first target; the world counts
    the optimizer steps, the learning rate is one tenth, and the arithmetic
    is exact. *)

Module Demo.

Definition predict (m : model_ref) (x : Z) : Z :=
  match m with Live => x | Ema => 0 end.

Definition collaborators (loader : loader_ref -> list (Z * Z))
  : Collaborators :=
  {| World := Z;
     Inputs := Z;
     Targets := Z;
     Logits := Z;
     LossT := Q;
     MixMode := unit;
     Lam := unit;
     iter_loader := fun l w => (loader l, w);
     inputs_to_device := fun x => x;
     targets_to_device := fun t => t;
     mix_forward := fun x t w => ((tt, x, t, t, tt), w);
     mix_criterion := fun _ crit logits a _ _ w => crit logits a w;
     criterion :=
       fun logits t w => (inject_Z (Z.abs (logits - t)) + 2, w)%Q;
     model_call := fun m x w => (predict m x, w);
     loss_item := fun q => Num q;
     correct_mask := fun logits t => [logits =? t];
     model_train := fun w => w;
     model_eval := fun _ w => w;
     optimizer_zero_grad := fun w => w;
     loss_backward := fun _ w => w;
     optimizer_step := fun w => w + 1;
     model_ema_update := fun w => w;
     optimizer_lr := fun _ => Num (1 # 10);
     scheduler_step := fun _ w => w;
     float32 := exact;
     float64 := exact |}.

(** Two training batches (the second one misclassified by the live model)
    and three validation batches. *)
Definition loader (l : loader_ref) : list (Z * Z) :=
  match l with
  | TrainLoader => [(1, 1); (2, 0)]
  | ValidLoader => [(1, 1); (2, 2); (3, 3)]
  end.

(** Loaders that yield no batch. *)
Definition empty_loader (l : loader_ref) : list (Z * Z) := [].

(** A trainer for epochs 0 and 1 that logs at every iteration. *)
Definition trainer : Trainer :=
  Trainer_init "runs/demo" (Some 0) (Some 2) None None None (Some 1)
    None None.

(** A trainer with [max_epoch = start_epoch]. *)
Definition idle_trainer : Trainer :=
  Trainer_init "runs/demo" (Some 3) (Some 3) None None None None None None.

(** A trainer configured with [common.log_freq = 0]. *)
Definition log_freq_zero_trainer : Trainer :=
  Trainer_init "runs/demo" (Some 0) (Some 2) None None None (Some 0)
    None None.

Definition initial (loader : loader_ref -> list (Z * Z)) (t : Trainer)
  : state (collaborators loader) :=
  Build_state (collaborators loader) t 0.

(** The trainer before [run], with the two loaders above. *)
Definition start : state (collaborators loader) := initial loader trainer.

(** The same trainer on loaders that yield nothing. *)
Definition start_empty : state (collaborators empty_loader) :=
  initial empty_loader trainer.

(** The trainer with no epoch to run. *)
Definition start_idle : state (collaborators loader) :=
  initial loader idle_trainer.

(** The trainer on entry to the second training iteration of epoch 0. *)
Definition second_iteration : state (collaborators loader) :=
  Build_state (collaborators loader) (set_log_iter trainer 1) 1.

End Demo.

(** ** Further views of a list of calls *)

(** The four calls that change the gradients or the weights. *)
Definition is_update_event (e : event) : bool :=
  match e with
  | EvZeroGrad | EvBackward | EvOptimizerStep | EvEmaUpdate => true
  | _ => false
  end.

(** The update calls of one training batch, in program order. *)
Definition update_block : list event :=
  [EvZeroGrad; EvBackward; EvOptimizerStep; EvEmaUpdate].

(** Calls on the metrics sink and on the text log. *)
Definition is_logging_event (e : event) : bool :=
  match e with
  | EvAddScalar _ _ _ | EvLoggerInfo _ => true
  | _ => false
  end.

Definition is_compute_event (e : event) : bool := negb (is_logging_event e).

(** The steps at which the metrics sink received a scalar under [tag]. *)
Definition scalar_step (tag : string) (e : event) : list Z :=
  match e with
  | EvAddScalar tag' _ step => if String.eqb tag' tag then [step] else []
  | _ => []
  end.

Definition scalar_steps (tag : string) (evs : list event) : list Z :=
  flat_map (scalar_step tag) evs.

(** Calls on the mixing strategy. *)
Definition is_mix_event (e : event) : bool :=
  match e with
  | EvMixForward | EvMixCriterion => true
  | _ => false
  end.

(** Calls that the trainer itself makes in validation only: [eval()] on a
    model, and entering and leaving the [no_grad] context.  The criterion is
    not among them: training hands [self.criterion] to [mix.mix_criterion]
    (lines 109-111), which may call it. *)
Definition is_validation_only_event (e : event) : bool :=
  match e with
  | EvModelEval _ | EvNoGradEnter | EvNoGradExit => true
  | _ => false
  end.

(** Two trainers with the same configuration: they differ at most in
    [log_iter] and in the two best metrics. *)
Definition same_config (t t' : Trainer) : Prop :=
  save_dir t' = save_dir t /\
  start_epoch t' = start_epoch t /\
  max_epoch t' = max_epoch t /\
  device_type t' = device_type t /\
  profile_first t' = profile_first t /\
  enable_mix_precision t' = enable_mix_precision t /\
  log_freq t' = log_freq t.

(** ** The optimizer state moved to the GPU by [Trainer.__init__]

    Lines 55-60.  [optimizer.state] maps each parameter to a dict from state
    names to values, some of them tensors.  A tensor is its contents and the
    device it lives on; [v.cuda()] is the tensor with the same contents on
    the device cuda.  A dict is the list of its items in insertion order,
    with distinct keys; [d[k] = v] on a key already present replaces the
    value in place. *)

Module OptimizerState.

Record tensor : Type := {
  data : Z;
  device : string
}.

(** [t.cuda()] *)
Definition cuda (t : tensor) : tensor :=
  {| data := data t; device := "cuda"%string |}.

(** A value of a state dict: a tensor, or anything else (an int step count
    for instance). *)
Inductive value : Type :=
| VTensor (t : tensor)
| VOther (z : Z).

Definition dict : Type := list (string * value).

(** [d[k]], when present. *)
Fixpoint dict_get (k : string) (d : dict) : option value :=
  match d with
  | [] => None
  | (k', v) :: rest => if String.eqb k' k then Some v else dict_get k rest
  end.

(** [d[k] = v] *)
Fixpoint dict_set (k : string) (v : value) (d : dict) : dict :=
  match d with
  | [] => [(k, v)]
  | (k', v') :: rest =>
      if String.eqb k' k then (k', v) :: rest
      else (k', v') :: dict_set k v rest
  end.

(** The body of the inner loop, lines 59-60, on the item [(k, v)]. *)
Definition move_item (state : dict) (item : string * value) : dict :=
  match snd item with
  | VTensor t => dict_set (fst item) (VTensor (cuda t)) state
  | VOther _ => state
  end.

(** [for k, v in state.items(): ...], lines 58-60: the items are those of
    [state] on entry, the assignments go to [state] itself. *)
Definition state_to_cuda (state : dict) : dict :=
  fold_left move_item state state.

(** [optimizer.state], a dict keyed by parameter (by identity). *)
Definition optimizer_state : Type := list (Z * dict).

(** Lines 55-60: nothing on the device type cpu, otherwise every state dict
    is updated in place. *)
Definition move_optimizer_state (device_type' : string)
    (st : optimizer_state) : optimizer_state :=
  if String.eqb device_type' "cpu"
  then st
  else map (fun ps => (fst ps, state_to_cuda (snd ps))) st.

(** What the loop does to one value. *)
Definition value_to_cuda (v : value) : value :=
  match v with
  | VTensor t => VTensor (cuda t)
  | VOther z => VOther z
  end.

(** The state dicts are dicts: no key twice. *)
Definition well_formed (st : optimizer_state) : Prop :=
  Forall (fun ps => NoDup (map fst (snd ps))) st.

(** An Adam-like state of two parameters, on the CPU. *)
Definition example_state : optimizer_state :=
  [(1, [("step"%string, VOther 3);
        ("exp_avg"%string,
         VTensor {| data := 10; device := "cpu"%string |});
        ("exp_avg_sq"%string,
         VTensor {| data := 11; device := "cpu"%string |})]);
   (2, [("step"%string, VOther 3);
        ("exp_avg"%string,
         VTensor {| data := 20; device := "cpu"%string |})])].

End OptimizerState.

(** ** More concrete cases *)

Module Cases.

(** Two training batches and no validation batch. *)
Definition no_validation_loader (l : loader_ref) : list (Z * Z) :=
  match l with
  | TrainLoader => [(1, 1); (2, 0)]
  | ValidLoader => []
  end.

(** The demo trainer on the loaders without validation data. *)
Definition start_no_validation
  : state (Demo.collaborators no_validation_loader) :=
  Demo.initial no_validation_loader Demo.trainer.

(** The trainer configured with [common.log_freq = 0], on the demo
    loaders and on loaders that yield nothing. *)
Definition start_log_freq_zero : state (Demo.collaborators Demo.loader) :=
  Demo.initial Demo.loader Demo.log_freq_zero_trainer.

Definition start_log_freq_zero_empty
  : state (Demo.collaborators Demo.empty_loader) :=
  Demo.initial Demo.empty_loader Demo.log_freq_zero_trainer.

(** Collaborators whose batches hold any number of samples: the inputs and
    the targets of a batch are lists of the same length, the model
    classifies each sample, the indicator tensor has one entry per sample
    and the criterion is the mean absolute error of the batch. *)
Definition absolute_error (p : Z * Z) : pyfloat :=
  Num (inject_Z (Z.abs (fst p - snd p))).

Definition batched (loader : loader_ref -> list (list Z * list Z))
  : Collaborators :=
  {| World := Z;
     Inputs := list Z;
     Targets := list Z;
     Logits := list Z;
     LossT := pyfloat;
     MixMode := unit;
     Lam := unit;
     iter_loader := fun l w => (loader l, w);
     inputs_to_device := fun x => x;
     targets_to_device := fun t => t;
     mix_forward := fun x t w => ((tt, x, t, t, tt), w);
     mix_criterion := fun _ crit logits a _ _ w => crit logits a w;
     criterion :=
       fun logits t w =>
         (mean exact (map absolute_error (combine logits t)), w);
     model_call := fun m x w => (map (Demo.predict m) x, w);
     loss_item := fun l => l;
     correct_mask :=
       fun logits t => map (fun p => fst p =? snd p) (combine logits t);
     model_train := fun w => w;
     model_eval := fun _ w => w;
     optimizer_zero_grad := fun w => w;
     loss_backward := fun _ w => w;
     optimizer_step := fun w => w + 1;
     model_ema_update := fun w => w;
     optimizer_lr := fun _ => Num (1 # 10);
     scheduler_step := fun _ w => w;
     float32 := exact;
     float64 := exact |}.

(** Loaders that yield one batch, and that batch holds no sample. *)
Definition zero_sample_loader (l : loader_ref) : list (list Z * list Z) :=
  [([], [])].

(** Loaders that yield two batches of five samples; the live model gets
    three of the first batch right and four of the second. *)
Definition five_sample_loader (l : loader_ref) : list (list Z * list Z) :=
  [([1; 2; 3; 4; 5], [1; 2; 3; 0; 0]); ([1; 2; 3; 4; 5], [1; 2; 3; 4; 0])].

(** The demo trainer on these loaders. *)
Definition start_zero_sample : state (batched zero_sample_loader) :=
  Build_state (batched zero_sample_loader) Demo.trainer 0.

Definition start_five_sample : state (batched five_sample_loader) :=
  Build_state (batched five_sample_loader) Demo.trainer 0.

End Cases.

(** * Properties *)

(** ** Floats *)

Lemma fle_refl (a : pyfloat) : is_nan a = false -> fle a a = true.
Proof.
  destruct a as [| | |q]; simpl; try discriminate; try reflexivity.
  intros _. apply Qle_bool_iff. apply Qle_refl.
Qed.

Lemma fgt_fle (a b : pyfloat) : fgt a b = true -> fle b a = true.
Proof.
  unfold fgt.
  destruct a as [| | |x], b as [| | |y]; simpl; try discriminate;
    try reflexivity.
  intros H. apply negb_true_iff in H. apply Qle_bool_iff.
  destruct (Qlt_le_dec y x) as [Hlt|Hle].
  - apply Qlt_le_weak. exact Hlt.
  - apply Qle_bool_iff in Hle. congruence.
Qed.

Lemma fgt_not_nan (a b : pyfloat) : fgt a b = true -> is_nan a = false.
Proof.
  unfold fgt. destruct a, b; simpl; try discriminate; reflexivity.
Qed.

(** On numbers [>] is the strict order of the rationals. *)
Lemma fgt_iff_Qlt (x y : Q) : fgt (Num x) (Num y) = true <-> (y < x)%Q.
Proof.
  unfold fgt. simpl. rewrite negb_true_iff. split.
  - intros H. destruct (Qlt_le_dec y x) as [Hlt|Hle]; [exact Hlt|].
    apply Qle_bool_iff in Hle. congruence.
  - intros H. destruct (Qle_bool x y) eqn:E; [|reflexivity].
    apply Qle_bool_iff in E. exfalso. apply (Qlt_not_le _ _ H). exact E.
Qed.

Lemma in_unit_intervalb_spec (a : pyfloat) :
  in_unit_intervalb a = true <-> in_unit_interval a.
Proof.
  unfold in_unit_intervalb. rewrite andb_true_iff.
  destruct a as [| | |x]; simpl.
  - split; [intros [H _]; discriminate H|intros []].
  - split; [intros [H _]; discriminate H|intros []].
  - split; [intros [_ H]; discriminate H|intros []].
  - unfold zero, one. simpl. rewrite !Qle_bool_iff. tauto.
Qed.

Lemma in_unit_interval_bool_to_float (b : bool) :
  in_unit_interval (bool_to_float b).
Proof. destruct b; simpl; split; lra. Qed.

Lemma in_unit_interval_nth (l : list pyfloat) (i : nat) :
  Forall in_unit_interval l -> in_unit_interval (nth i l zero).
Proof.
  intros Hall. destruct (Nat.lt_ge_cases i (List.length l)) as [Hlt|Hge].
  - rewrite Forall_forall in Hall. apply Hall. apply nth_In. exact Hlt.
  - rewrite nth_overflow by exact Hge. simpl. split; lra.
Qed.

(** A sum of values in [[0,1]], added in any order with roundings that
    stay within integer bounds, is a number between 0 and the number of
    terms added. *)
Lemma sum_by_bounds (A : arith) (N : nat) (l : list pyfloat) (p : plan) :
  rounds_within A N ->
  Forall in_unit_interval l ->
  (List.length (terms p) <= N)%nat ->
  exists q : Q,
    sum_by A l p = Num q /\
    (0 <= q)%Q /\ (q <= inject_Z (Z.of_nat (List.length (terms p))))%Q.
Proof.
  intros Hr Hall. induction p as [i|a IHa b IHb]; intros Hlen.
  - simpl. pose proof (in_unit_interval_nth l i Hall) as Hi.
    destruct (nth i l zero) as [| | |x]; simpl in Hi; try contradiction.
    exists x. split; [reflexivity|]. change (inject_Z 1) with 1%Q. exact Hi.
  - simpl in Hlen. rewrite length_app in Hlen.
    destruct IHa as [qa [Ea [Ha0 Ha1]]]; [lia|].
    destruct IHb as [qb [Eb [Hb0 Hb1]]]; [lia|].
    simpl. rewrite Ea, Eb. simpl. rewrite length_app.
    apply (Hr (qa + qb)%Q); [exact Hlen|lra|].
    rewrite Nat2Z.inj_add, inject_Z_plus. lra.
Qed.

(** The mean of at most [N] values in [[0,1]] is in [[0,1]], whatever the
    order of the additions and the roundings within integer bounds. *)
Lemma mean_in_unit_interval (A : arith) (N : nat) (l : list pyfloat) :
  sound_up_to A N ->
  l <> [] -> (List.length l <= N)%nat ->
  Forall in_unit_interval l -> in_unit_interval (mean A l).
Proof.
  intros [Hr Hp] Hne Hlen Hall. destruct l as [|a l]; [congruence|].
  unfold mean. set (n := List.length (a :: l)) in *.
  assert (Hn : (0 < n)%nat) by (subst n; simpl; lia).
  assert (Hterms : List.length (terms (sum_plan A n)) = n).
  { rewrite (Permutation_length (Hp n Hn)). apply length_seq. }
  destruct (sum_by_bounds A N (a :: l) (sum_plan A n) Hr Hall)
    as [q [E [H0 H1]]]; [lia|].
  rewrite E. rewrite Hterms in H1. unfold fdiv_count, round_to.
  assert (Hpos : Z.pos (Pos.of_nat n) = Z.of_nat n).
  { destruct n as [|k]; [lia|]. rewrite <- Pos.of_nat_succ.
    rewrite Zpos_P_of_succ_nat. lia. }
  rewrite Hpos.
  assert (Hq : (0 < inject_Z (Z.of_nat n))%Q).
  { change 0%Q with (inject_Z 0). rewrite <- Zlt_Qlt. lia. }
  destruct (Hr (q / inject_Z (Z.of_nat n))%Q 1%nat) as [q' [E' [H0' H1']]].
  - lia.
  - apply Qle_shift_div_l; [exact Hq|]. lra.
  - change (inject_Z (Z.of_nat 1)) with 1%Q.
    apply Qle_shift_div_r; [exact Hq|]. lra.
  - rewrite E'. simpl. change (inject_Z (Z.of_nat 1)) with 1%Q in H1'.
    split; assumption.
Qed.

Lemma mean_nil (A : arith) : mean A [] = NaN.
Proof. reflexivity. Qed.

Lemma terms_left_to_right (n : nat) :
  (0 < n)%nat -> terms (left_to_right n) = seq 0 n.
Proof.
  induction n as [|m IH]; intros Hn; [lia|].
  destruct m as [|m']; [reflexivity|].
  change (terms (left_to_right (S (S m'))))
    with (terms (left_to_right (S m')) ++ [S m']).
  rewrite IH by lia. rewrite (seq_S (S m') 0). reflexivity.
Qed.

(** Exact arithmetic can be trusted at every size. *)
Lemma exact_sound (N : nat) : sound_up_to exact N.
Proof.
  split.
  - intros q k _ H0 H1. exists q. simpl. auto.
  - intros n Hn. simpl. rewrite terms_left_to_right by exact Hn.
    apply Permutation_refl.
Qed.

Lemma nan_not_in_unit_interval : ~ in_unit_interval NaN.
Proof. simpl. tauto. Qed.

(** ** Running computations *)

Section Properties.

Context {C : Collaborators}.

Local Open Scope engine_scope.

Lemma bind_ok {A B} (m : M C A) (f : A -> M C B) s ev1 a s1 ev2 r s2 :
  m s = (ev1, Ok a, s1) ->
  f a s1 = (ev2, r, s2) ->
  bind m f s = (ev1 ++ ev2, r, s2).
Proof. intros H1 H2. unfold bind. rewrite H1, H2. reflexivity. Qed.

Lemma bind_raise {A B} (m : M C A) (f : A -> M C B) s ev1 e s1 :
  m s = (ev1, Raise e, s1) ->
  bind m f s = (ev1, Raise e, s1).
Proof. intros H1. unfold bind. rewrite H1. reflexivity. Qed.

Ltac unfold_monad :=
  unfold bind, ret, raise, emit, call, act, peek, get_self, put_self,
    logger_info, writer_add_scalar; simpl.

(** *** Validation *)

Lemma valid_batch_run (m : model_ref) (batch : Inputs C * Targets C)
    (lh ah : list pyfloat) (s : state C) :
  exists logits loss w',
    valid_batch m batch (lh, ah) s =
      ([EvModelCall m; EvCriterion],
       Ok (lh ++ [loss_item C loss],
           ah ++ [batch_accuracy logits (targets_to_device C (snd batch))]),
       Build_state C (self s) w').
Proof.
  destruct batch as [inputs targets]. unfold valid_batch. unfold_monad.
  destruct (model_call C m (inputs_to_device C inputs) (world s))
    as [logits w1].
  simpl.
  destruct (criterion C logits (targets_to_device C targets) w1)
    as [loss w2].
  simpl. exists logits, loss, w2. reflexivity.
Qed.

Lemma valid_loop_run (m : model_ref) (batches : list (Inputs C * Targets C)) :
  forall (lh ah : list pyfloat) (s : state C),
  exists ls accs w',
    valid_loop m batches (lh, ah) s =
      (flat_map (fun _ => [EvModelCall m; EvCriterion]) batches,
       Ok (lh ++ ls, ah ++ accs),
       Build_state C (self s) w') /\
    List.length ls = List.length batches /\
    Forall2 accuracy_of_batch batches accs.
Proof.
  induction batches as [|batch rest IH]; intros lh ah s.
  - exists [], [], (world s). simpl. unfold ret.
    rewrite !app_nil_r. destruct s; simpl. auto.
  - destruct (valid_batch_run m batch lh ah s) as [logits [loss [w1 E1]]].
    destruct (IH (lh ++ [loss_item C loss])
                 (ah ++ [batch_accuracy logits
                           (targets_to_device C (snd batch))])
                 (Build_state C (self s) w1))
      as [ls [accs [w2 [E2 [Hl Hall]]]]].
    exists (loss_item C loss :: ls),
      (batch_accuracy logits (targets_to_device C (snd batch)) :: accs), w2.
    split; [|split].
    + simpl valid_loop. erewrite bind_ok; [|exact E1|exact E2].
      simpl. rewrite <- !app_assoc. reflexivity.
    + simpl. lia.
    + constructor; [|exact Hall]. exists logits. reflexivity.
Qed.

(** [valid_one_epoch] always returns; its calls, result and final state. *)
Lemma valid_one_epoch_run (epoch : Z) (isEMA : bool) (s : state C) :
  exists ls accs w',
    valid_one_epoch epoch isEMA s =
      ([EvCall (CallValidOneEpoch epoch isEMA);
        EvLoggerInfo MsgValidation;
        EvModelEval (select_model isEMA);
        EvNoGradEnter;
        EvIterLoader ValidLoader]
       ++ flat_map
            (fun _ => [EvModelCall (select_model isEMA); EvCriterion])
            (fst (iter_loader C ValidLoader
                    (model_eval C (select_model isEMA) (world s))))
       ++ [EvNoGradExit; EvLoggerInfo (MsgFinish (np_mean C accs) (np_mean C ls))],
       Ok {| Accuracy := np_mean C accs; Loss := np_mean C ls |},
       Build_state C (self s) w') /\
    List.length ls =
      List.length (fst (iter_loader C ValidLoader
                          (model_eval C (select_model isEMA) (world s)))) /\
    Forall2 accuracy_of_batch
      (fst (iter_loader C ValidLoader
              (model_eval C (select_model isEMA) (world s))))
      accs.
Proof.
  unfold valid_one_epoch. unfold_monad.
  destruct (iter_loader C ValidLoader
              (model_eval C (select_model isEMA) (world s)))
    as [batches w1].
  simpl.
  destruct (valid_loop_run (select_model isEMA) batches [] []
              (Build_state C (self s) w1))
    as [ls [accs [w2 [E [Hl Hall]]]]].
  rewrite E. simpl.
  exists ls, accs, w2. repeat split; try assumption; try lia.
Qed.

(** *** Training *)

Lemma train_batch_run (epoch n idx : Z) (batch : Inputs C * Targets C)
    (lh ah : list pyfloat) (s : state C) :
  log_freq (self s) <> 0 ->
  n <> 0 ->
  exists logits loss w',
    train_batch epoch n idx batch (lh, ah) s =
      (batch_calls ++
       (if log_iter (self s) mod log_freq (self s) =? 0
        then
          [EvAddScalar "Train/Accuracy_iter"
             (batch_accuracy logits (targets_to_device C (snd batch)))
             (log_iter (self s));
           EvAddScalar "Train/Loss_iter" (loss_item C loss)
             (log_iter (self s));
           EvLoggerInfo
             (MsgTrainIter epoch idx n
                (Num (100 * inject_Z idx / inject_Z n))
                (np_mean C (lh ++ [loss_item C loss]))
                (np_mean C (ah ++ [batch_accuracy logits
                                (targets_to_device C (snd batch))]))
                (optimizer_lr C (world s)))]
        else []),
       Ok (lh ++ [loss_item C loss],
           ah ++ [batch_accuracy logits (targets_to_device C (snd batch))]),
       Build_state C (set_log_iter (self s) (log_iter (self s) + 1)) w').
Proof.
  intros Hf Hn. destruct batch as [inputs targets].
  unfold train_batch, py_mod, py_truediv. unfold_monad.
  destruct (mix_forward C (inputs_to_device C inputs)
              (targets_to_device C targets) (world s))
    as [[[[[mode inputs'] target_a] target_b] lam] w1].
  simpl.
  destruct (model_call C Live inputs' w1) as [logits w2]. simpl.
  destruct (mix_criterion C mode (criterion C) logits target_a target_b lam
              w2)
    as [loss w3].
  simpl.
  apply Z.eqb_neq in Hf. rewrite Hf. simpl.
  apply Z.eqb_neq in Hn.
  exists logits, loss,
    (model_ema_update C
       (optimizer_step C (loss_backward C loss (optimizer_zero_grad C w3)))).
  destruct (log_iter (self s) mod log_freq (self s) =? 0); simpl.
  - rewrite Hn. simpl. rewrite !last_last. reflexivity.
  - reflexivity.
Qed.

(** With [log_freq = 0] the first [%] of an iteration raises, after the
    update calls of that batch. *)
Lemma train_batch_raise (epoch n idx : Z) (batch : Inputs C * Targets C)
    (hist : list pyfloat * list pyfloat) (s : state C) :
  log_freq (self s) = 0 ->
  exists w',
    train_batch epoch n idx batch hist s =
      (batch_calls, Raise ZeroDivisionError, Build_state C (self s) w').
Proof.
  intros Hf. destruct batch as [inputs targets]. destruct hist as [lh ah].
  unfold train_batch, py_mod. unfold_monad.
  destruct (mix_forward C (inputs_to_device C inputs)
              (targets_to_device C targets) (world s))
    as [[[[[mode inputs'] target_a] target_b] lam] w1].
  simpl.
  destruct (model_call C Live inputs' w1) as [logits w2]. simpl.
  destruct (mix_criterion C mode (criterion C) logits target_a target_b lam
              w2)
    as [loss w3].
  simpl. rewrite Hf. simpl. eexists. reflexivity.
Qed.

Lemma set_log_iter_twice (t : Trainer) (a b : Z) :
  set_log_iter (set_log_iter t a) b = set_log_iter t b.
Proof. reflexivity. Qed.

Lemma filter_step_batch_calls (l : list event) :
  filter is_step_event (batch_calls ++ l) =
  batch_steps ++ filter is_step_event l.
Proof. reflexivity. Qed.

Lemma phases_app (l1 l2 : list event) :
  phases (l1 ++ l2) = phases l1 ++ phases l2.
Proof. unfold phases. apply flat_map_app. Qed.

Lemma train_loop_run (epoch n : Z) (batches : list (Inputs C * Targets C)) :
  n <> 0 ->
  forall (idx : Z) (lh ah : list pyfloat) (s : state C),
  log_freq (self s) <> 0 ->
  exists evs ls accs w',
    train_loop epoch n idx batches (lh, ah) s =
      (evs, Ok (lh ++ ls, ah ++ accs),
       Build_state C
         (set_log_iter (self s)
            (log_iter (self s) + Z.of_nat (List.length batches))) w') /\
    List.length ls = List.length batches /\
    Forall2 accuracy_of_batch batches accs /\
    filter is_step_event evs = flat_map (fun _ => batch_steps) batches /\
    phases evs = [].
Proof.
  intros Hn.
  induction batches as [|batch rest IH]; intros idx lh ah s Hf.
  - exists [], [], [], (world s). simpl. unfold ret.
    rewrite !app_nil_r. rewrite Z.add_0_r.
    destruct s as [t w]; destruct t; simpl. auto 10.
  - destruct (train_batch_run epoch n idx batch lh ah s Hf Hn)
      as [logits [loss [w1 E1]]].
    match type of E1 with _ = (_, Ok (?lh1, ?ah1), ?s1) =>
      destruct (IH (idx + 1) lh1 ah1 s1 Hf)
        as [evs [ls [accs [w2 [E2 [Hl [Hall [Hst Hph]]]]]]]]
    end.
    match type of E1 with _ = (?ev1, _, _) =>
      exists (ev1 ++ evs), (loss_item C loss :: ls),
        (batch_accuracy logits (targets_to_device C (snd batch)) :: accs), w2
    end.
    split; [|split; [|split; [|split]]].
    + simpl train_loop. erewrite bind_ok; [|exact E1|exact E2].
      simpl self. rewrite set_log_iter_twice. simpl log_iter.
      rewrite <- (app_assoc lh), <- (app_assoc ah).
      change (List.length (batch :: rest)) with (S (List.length rest)).
      rewrite Nat2Z.inj_succ.
      replace (log_iter (self s) + 1 + Z.of_nat (List.length rest))
        with (log_iter (self s) + Z.succ (Z.of_nat (List.length rest)))
        by lia.
      reflexivity.
    + simpl. lia.
    + constructor; [|exact Hall]. exists logits. reflexivity.
    + rewrite <- app_assoc. rewrite filter_step_batch_calls.
      rewrite filter_app, Hst.
      destruct (log_iter (self s) mod log_freq (self s) =? 0); reflexivity.
    + rewrite !phases_app, Hph.
      destruct (log_iter (self s) mod log_freq (self s) =? 0); reflexivity.
Qed.

Lemma train_one_epoch_run (epoch : Z) (s : state C) :
  log_freq (self s) <> 0 ->
  exists evs ls accs w',
    train_one_epoch epoch s =
      ([EvCall (CallTrainOneEpoch epoch); EvLoggerInfo MsgTraining;
        EvModelTrain; EvIterLoader TrainLoader]
       ++ evs ++ [EvLoggerInfo (MsgFinish (np_mean C accs) (np_mean C ls))],
       Ok {| Accuracy := np_mean C accs; Loss := np_mean C ls |},
       Build_state C
         (set_log_iter (self s)
            (log_iter (self s) +
             Z.of_nat
               (List.length
                  (fst (iter_loader C TrainLoader
                          (model_train C (world s))))))) w') /\
    List.length ls =
      List.length (fst (iter_loader C TrainLoader
                          (model_train C (world s)))) /\
    Forall2 accuracy_of_batch
      (fst (iter_loader C TrainLoader (model_train C (world s)))) accs /\
    filter is_step_event evs =
      flat_map (fun _ => batch_steps)
        (fst (iter_loader C TrainLoader (model_train C (world s)))) /\
    phases evs = [].
Proof.
  intros Hf. unfold train_one_epoch. unfold_monad.
  destruct (iter_loader C TrainLoader (model_train C (world s)))
    as [batches w1].
  simpl.
  assert (Hloop :
    exists evs ls accs w',
      train_loop epoch (Z.of_nat (List.length batches)) 0 batches ([], [])
        (Build_state C (self s) w1) =
        (evs, Ok (ls, accs),
         Build_state C
           (set_log_iter (self s)
              (log_iter (self s) + Z.of_nat (List.length batches))) w') /\
      List.length ls = List.length batches /\
      Forall2 accuracy_of_batch batches accs /\
      filter is_step_event evs = flat_map (fun _ => batch_steps) batches /\
      phases evs = []).
  { destruct batches as [|b rest].
    - exists [], [], [], w1. simpl. unfold ret. rewrite Z.add_0_r.
      destruct s as [t w]; destruct t; simpl. auto 10.
    - assert (Hn : Z.of_nat (List.length (b :: rest)) <> 0)
        by (simpl; lia).
      destruct (train_loop_run epoch _ (b :: rest) Hn 0 [] []
                  (Build_state C (self s) w1) Hf)
        as [evs [ls [accs [w2 H]]]].
      exists evs, ls, accs, w2. exact H. }
  destruct Hloop as [evs [ls [accs [w2 [E [Hl [Hall [Hst Hph]]]]]]]].
  rewrite E. simpl.
  exists evs, ls, accs, w2. repeat split; try assumption; try lia.
Qed.

Lemma train_one_epoch_raise (epoch : Z) (s : state C) :
  log_freq (self s) = 0 ->
  fst (iter_loader C TrainLoader (model_train C (world s))) <> [] ->
  exists w',
    train_one_epoch epoch s =
      ([EvCall (CallTrainOneEpoch epoch); EvLoggerInfo MsgTraining;
        EvModelTrain; EvIterLoader TrainLoader] ++ batch_calls,
       Raise ZeroDivisionError,
       Build_state C (self s) w').
Proof.
  intros Hf Hne. unfold train_one_epoch. unfold_monad.
  destruct (iter_loader C TrainLoader (model_train C (world s)))
    as [batches w1].
  simpl in *. destruct batches as [|b rest]; [congruence|].
  simpl train_loop.
  destruct (train_batch_raise epoch (Z.of_nat (List.length (b :: rest))) 0 b
              ([], []) (Build_state C (self s) w1) Hf) as [w2 E].
  erewrite bind_raise; [|exact E]. exists w2. reflexivity.
Qed.

Lemma train_one_epoch_empty (epoch : Z) (s : state C) :
  fst (iter_loader C TrainLoader (model_train C (world s))) = [] ->
  exists w',
    train_one_epoch epoch s =
      ([EvCall (CallTrainOneEpoch epoch); EvLoggerInfo MsgTraining;
        EvModelTrain; EvIterLoader TrainLoader;
        EvLoggerInfo (MsgFinish NaN NaN)],
       Ok {| Accuracy := NaN; Loss := NaN |},
       Build_state C (self s) w').
Proof.
  intros He. unfold train_one_epoch. unfold_monad.
  destruct (iter_loader C TrainLoader (model_train C (world s)))
    as [batches w1].
  simpl in *. subst batches. simpl. exists w1. reflexivity.
Qed.

(** Whatever happens, [train_one_epoch] changes no field but [log_iter]. *)
Lemma train_one_epoch_self (epoch : Z) (s : state C) :
  exists li,
    self (state_of (train_one_epoch epoch s)) = set_log_iter (self s) li.
Proof.
  destruct (Z.eq_dec (log_freq (self s)) 0) as [Hf|Hf].
  - destruct (fst (iter_loader C TrainLoader (model_train C (world s))))
      as [|b rest] eqn:Eb.
    + destruct (train_one_epoch_empty epoch s Eb) as [w' E]. rewrite E.
      exists (log_iter (self s)). simpl. destruct s as [t w]; destruct t.
      reflexivity.
    + destruct (train_one_epoch_raise epoch s Hf) as [w' E].
      { rewrite Eb. discriminate. }
      rewrite E. exists (log_iter (self s)). simpl.
      destruct s as [t w]; destruct t. reflexivity.
  - destruct (train_one_epoch_run epoch s Hf) as [evs [ls [accs [w' [E _]]]]].
    rewrite E. eexists. reflexivity.
Qed.

(** *** The epoch loop *)

Lemma check_best_run (slot : best_slot) (acc : pyfloat) (s : state C) :
  check_best slot acc s =
    ([EvCompareBest slot acc (get_best (self s) slot)],
     Ok (fgt acc (get_best (self s) slot)),
     Build_state C
       (if fgt acc (get_best (self s) slot)
        then set_best (self s) slot acc else self s)
       (world s)).
Proof.
  unfold check_best. unfold_monad.
  destruct (fgt acc (get_best (self s) slot)); simpl.
  - reflexivity.
  - destruct s; reflexivity.
Qed.

Arguments train_one_epoch : simpl never.
Arguments valid_one_epoch : simpl never.
Arguments check_best : simpl never.

Lemma phases_valid_loop (m : model_ref) (A : Type) (l : list A) :
  phases (flat_map (fun _ => [EvModelCall m; EvCriterion]) l) = [].
Proof. induction l as [|x l IH]; [reflexivity|exact IH]. Qed.

Lemma run_epoch_after_train (epoch : Z) (s : state C) evT tm s1 li :
  train_one_epoch epoch
    (Build_state C (self s) (scheduler_step C (epoch + 1) (world s))) =
    (evT, Ok tm, s1) ->
  self s1 = set_log_iter (self s) li ->
  exists evV vm w2 evE vem w3,
    valid_one_epoch epoch false s1 =
      (evV, Ok vm, Build_state C (self s1) w2) /\
    valid_one_epoch epoch true (Build_state C (self s1) w2) =
      (evE, Ok vem, Build_state C (self s1) w3) /\
    phases evV = [PhValid epoch false] /\
    phases evE = [PhValid epoch true] /\
    run_epoch epoch s =
      ([EvSchedulerStep (epoch + 1); EvLoggerInfo MsgRule]
       ++ evT ++ evV ++ evE
       ++ [EvGcCollect;
           EvCompareBest BestModel (Accuracy vm)
             (best_model_metric (self s));
           EvCompareBest BestModelEma (Accuracy vem)
             (best_model_ema_metric (self s));
           EvSaveCheckpoint epoch
             (fgt (Accuracy vm) (best_model_metric (self s)))
             (fgt (Accuracy vem) (best_model_ema_metric (self s)))
             (if fgt (Accuracy vm) (best_model_metric (self s))
              then Accuracy vm else best_model_metric (self s))
             (if fgt (Accuracy vem) (best_model_ema_metric (self s))
              then Accuracy vem else best_model_ema_metric (self s));
           EvCall (CallWriteLog epoch);
           EvAddScalar "Learing rate" (optimizer_lr C w3) epoch;
           EvAddScalar "Train/Accuracy" (Accuracy tm) epoch;
           EvAddScalar "Train/Loss" (Loss tm) epoch;
           EvAddScalar "Valid/Accuracy" (Accuracy vm) epoch;
           EvAddScalar "Valid/Loss" (Loss vm) epoch;
           EvAddScalar "Valid/EMA_Accuracy" (Accuracy vem) epoch;
           EvAddScalar "Valid/EMA_Loss" (Loss vem) epoch;
           EvLoggerInfo MsgRule],
       Ok tt,
       Build_state C
         (set_best
            (set_best (self s1) BestModel
               (if fgt (Accuracy vm) (best_model_metric (self s))
                then Accuracy vm else best_model_metric (self s)))
            BestModelEma
            (if fgt (Accuracy vem) (best_model_ema_metric (self s))
             then Accuracy vem else best_model_ema_metric (self s)))
         w3).
Proof.
  intros ET Hs1.
  destruct (valid_one_epoch_run epoch false s1)
    as [lsV [accsV [w2 [EV _]]]].
  destruct (valid_one_epoch_run epoch true (Build_state C (self s1) w2))
    as [lsE [accsE [w3 [EE _]]]].
  do 6 eexists.
  split; [exact EV|]. split; [exact EE|].
  split.
  { rewrite !phases_app, phases_valid_loop. reflexivity. }
  split.
  { rewrite !phases_app, phases_valid_loop. reflexivity. }
  unfold run_epoch, write_log.
  unfold bind, act, logger_info, writer_add_scalar, emit, get_self, peek.
  simpl. rewrite ET. rewrite EV. rewrite EE.
  rewrite !check_best_run.
  destruct s1 as [t1 w1]. simpl in Hs1. subst t1. simpl.
  destruct (fgt (np_mean C accsV) (best_model_metric (self s))); simpl;
    destruct (fgt (np_mean C accsE) (best_model_ema_metric (self s)));
    simpl; rewrite <- ?app_assoc; simpl; rewrite <- ?app_assoc;
    reflexivity.
Qed.

(** With a non-zero [log_freq] an epoch runs to its end. *)
Lemma run_epoch_run (epoch : Z) (s : state C) :
  log_freq (self s) <> 0 ->
  exists evs s',
    run_epoch epoch s = (evs, Ok tt, s') /\
    phases evs = epoch_phases epoch /\
    log_freq (self s') = log_freq (self s).
Proof.
  intros Hf.
  destruct (train_one_epoch_run epoch
              (Build_state C (self s)
                 (scheduler_step C (epoch + 1) (world s))) Hf)
    as [evs [ls [accs [w1 [ET [_ [_ [_ HphT]]]]]]]].
  destruct (run_epoch_after_train epoch s _ _ _ _ ET eq_refl)
    as [evV [vm [w2 [evE [vem [w3 [_ [_ [HphV [HphE E]]]]]]]]]].
  do 2 eexists. split; [exact E|]. split.
  - rewrite !phases_app, HphT, HphV, HphE. reflexivity.
  - reflexivity.
Qed.

(** The best metrics after an epoch, whether it ends or raises: each is
    the stored one or an accuracy strictly above it. *)
Lemma run_epoch_bests (epoch : Z) (s : state C) :
  exists acc acc_ema,
    best_model_metric (self (state_of (run_epoch epoch s))) =
      (if fgt acc (best_model_metric (self s))
       then acc else best_model_metric (self s)) /\
    best_model_ema_metric (self (state_of (run_epoch epoch s))) =
      (if fgt acc_ema (best_model_ema_metric (self s))
       then acc_ema else best_model_ema_metric (self s)).
Proof.
  set (s0 := Build_state C (self s) (scheduler_step C (epoch + 1) (world s))).
  destruct (train_one_epoch epoch s0) as [[evT [tm|e]] s1] eqn:ET.
  - destruct (train_one_epoch_self epoch s0) as [li Hli].
    rewrite ET in Hli. simpl in Hli.
    destruct (run_epoch_after_train epoch s _ _ _ _ ET Hli)
      as [evV [vm [w2 [evE [vem [w3 [_ [_ [_ [_ E]]]]]]]]]].
    rewrite E. exists (Accuracy vm), (Accuracy vem). unfold state_of.
    simpl snd. rewrite Hli. simpl. split; reflexivity.
  - destruct (train_one_epoch_self epoch s0) as [li Hli].
    rewrite ET in Hli. simpl in Hli.
    exists (best_model_metric (self s)), (best_model_ema_metric (self s)).
    unfold run_epoch, bind, act, logger_info, emit. simpl.
    fold s0. rewrite ET. unfold state_of. simpl. rewrite Hli. simpl.
    split.
    + destruct (fgt _ _); reflexivity.
    + destruct (fgt _ _); reflexivity.
Qed.

Lemma models_used_app (l1 l2 : list event) :
  models_used (l1 ++ l2) = models_used l1 ++ models_used l2.
Proof. unfold models_used. apply flat_map_app. Qed.

Lemma models_used_valid_loop (m : model_ref) (A : Type) (l : list A) :
  models_used (flat_map (fun _ => [EvModelCall m; EvCriterion]) l) =
  map (fun _ => m) l.
Proof.
  unfold models_used.
  induction l as [|x l IH]; [reflexivity|].
  simpl. rewrite IH. reflexivity.
Qed.

Lemma filter_mutation_valid_loop (m : model_ref) (A : Type) (l : list A) :
  filter is_mutation (flat_map (fun _ => [EvModelCall m; EvCriterion]) l)
  = [].
Proof. induction l as [|x l IH]; [reflexivity|exact IH]. Qed.

Lemma flat_map_const_repeat {A B : Type} (p : list B) (l : list A) :
  flat_map (fun _ => p) l = List.concat (repeat p (List.length l)).
Proof.
  induction l as [|x l IH]; [reflexivity|]. simpl. rewrite IH. reflexivity.
Qed.

Lemma checkpoints_app (l1 l2 : list event) :
  checkpoints (l1 ++ l2) = checkpoints l1 ++ checkpoints l2.
Proof. unfold checkpoints. apply flat_map_app. Qed.

(** A list of calls none of whose phases is a save requests no checkpoint. *)
Lemma checkpoints_nil_of_phases (evs : list event) :
  (forall e, ~ In (PhSave e) (phases evs)) -> checkpoints evs = [].
Proof.
  induction evs as [|ev evs IH]; intros H; [reflexivity|].
  assert (Hrest : checkpoints evs = []).
  { apply IH. intros e Hin. apply (H e). unfold phases. simpl.
    apply in_or_app. right. exact Hin. }
  unfold checkpoints in *. simpl. rewrite Hrest.
  destruct ev; try reflexivity.
  exfalso. apply (H epoch). simpl. left. reflexivity.
Qed.

(** ** The model that is validated *)

(** C1, as the code has it: the model that [valid_one_epoch epoch isEMA]
    puts in evaluation mode, and the only model it calls on the validation
    batches, is the live model when [isEMA] is true and the EMA shadow model
    when [isEMA] is false, the reverse of what the flag's name announces. *)
Theorem valid_one_epoch_model_is_swapped (epoch : Z) (isEMA : bool)
    (s : state C) :
  models_used (events_of (valid_one_epoch epoch isEMA s)) =
  repeat (if isEMA then Live else Ema)
    (S (List.length
          (fst (iter_loader C ValidLoader
                  (model_eval C (if isEMA then Live else Ema) (world s)))))).
Proof.
  destruct (valid_one_epoch_run epoch isEMA s) as [ls [accs [w' [E _]]]].
  rewrite E. unfold events_of. cbn [fst].
  rewrite !models_used_app, models_used_valid_loop.
  unfold select_model. simpl. rewrite app_nil_r. f_equal.
  generalize (fst (iter_loader C ValidLoader
                     (model_eval C (if isEMA then Live else Ema) (world s)))).
  intros l. induction l as [|x l IH]; [reflexivity|].
  simpl. rewrite IH. reflexivity.
Qed.

(** ** What validation leaves untouched *)

(** C10: [valid_one_epoch] returns and leaves every field of the trainer
    ([log_iter], both best metrics and the rest) as it found it; of the
    calls it makes, the only one that changes a mode, the weights, the
    optimizer, the scheduler, the metrics sink or the checkpoint store is
    the [eval()] of the model it selected. *)
Theorem valid_one_epoch_frame (epoch : Z) (isEMA : bool) (s : state C) :
  (exists m, result_of (valid_one_epoch epoch isEMA s) = Ok m) /\
  self (state_of (valid_one_epoch epoch isEMA s)) = self s /\
  filter is_mutation (events_of (valid_one_epoch epoch isEMA s)) =
    [EvModelEval (select_model isEMA)].
Proof.
  destruct (valid_one_epoch_run epoch isEMA s) as [ls [accs [w' [E _]]]].
  rewrite E. unfold result_of, state_of, events_of. simpl.
  split; [eexists; reflexivity|]. split; [reflexivity|].
  rewrite filter_app, filter_mutation_valid_loop. reflexivity.
Qed.

(** ** Empty loaders *)

(** C9: when the loader yields no batch, [valid_one_epoch] and
    [train_one_epoch] return the mean of an empty history for both
    metrics, which is NaN, and NaN is not a value of the interval [0,1]. *)
Theorem empty_loader_metrics_are_nan (epoch : Z) (isEMA : bool)
    (s : state C) :
  (fst (iter_loader C ValidLoader
          (model_eval C (select_model isEMA) (world s))) = [] ->
   result_of (valid_one_epoch epoch isEMA s) =
     Ok {| Accuracy := NaN; Loss := NaN |}) /\
  (fst (iter_loader C TrainLoader (model_train C (world s))) = [] ->
   result_of (train_one_epoch epoch s) =
     Ok {| Accuracy := NaN; Loss := NaN |}) /\
  ~ in_unit_interval NaN.
Proof.
  split; [|split].
  - intros He.
    destruct (valid_one_epoch_run epoch isEMA s)
      as [ls [accs [w' [E [Hl Hall]]]]].
    rewrite E. unfold result_of. simpl.
    rewrite He in Hl, Hall. simpl in Hl.
    destruct ls; [|discriminate]. inversion Hall. reflexivity.
  - intros He. destruct (train_one_epoch_empty epoch s He) as [w' E].
    rewrite E. reflexivity.
  - exact nan_not_in_unit_interval.
Qed.

(** ** No epoch to run *)

Lemma py_range_empty (a b : Z) : b <= a -> py_range a b = [].
Proof.
  intros H. unfold py_range.
  replace (Z.to_nat (b - a)) with 0%nat by lia. reflexivity.
Qed.

Lemma py_range_spec (a b e : Z) : In e (py_range a b) <-> a <= e < b.
Proof.
  unfold py_range. rewrite in_map_iff. split.
  - intros [i [<- Hi]]. apply in_seq in Hi. lia.
  - intros H. exists (Z.to_nat (e - a)). split; [lia|].
    apply in_seq. lia.
Qed.

Lemma py_range_length (a b : Z) :
  List.length (py_range a b) = Z.to_nat (b - a).
Proof. unfold py_range. rewrite length_map, length_seq. reflexivity. Qed.

(** C8: with [max_epoch = start_epoch], [run] makes exactly two calls, the
    initial [zero_grad] and [step] of the optimizer: no epoch is trained or
    validated and [save_checkpoint] is never called; it returns with every
    field of the trainer (the best metrics and [log_iter] among them)
    unchanged. *)
Theorem run_without_epochs (s : state C) :
  max_epoch (self s) = start_epoch (self s) ->
  run s =
    ([EvZeroGrad; EvOptimizerStep], Ok tt,
     Build_state C (self s)
       (optimizer_step C (optimizer_zero_grad C (world s)))).
Proof.
  intros H. unfold run. unfold_monad.
  rewrite py_range_empty by lia. reflexivity.
Qed.

(** ** Update order within a training epoch *)

(** C4: in [train_one_epoch], the forward pass and update calls made are,
    for each batch taken from the training loader in turn, exactly: the
    forward pass of the live model, [zero_grad], [backward], the optimizer
    [step], and then one EMA [update].  Every batch the loader yields is
    taken, unless [log_freq] is 0: then the logging test of the first batch
    raises, after that batch's EMA update, and no further batch is taken. *)
Theorem train_one_epoch_update_order (epoch : Z) (s : state C) :
  filter is_step_event (events_of (train_one_epoch epoch s)) =
  List.concat
    (repeat
       [EvModelCall Live; EvZeroGrad; EvBackward; EvOptimizerStep;
        EvEmaUpdate]
       (if log_freq (self s) =? 0
        then Nat.min 1
               (List.length
                  (fst (iter_loader C TrainLoader
                          (model_train C (world s)))))
        else List.length
               (fst (iter_loader C TrainLoader
                       (model_train C (world s)))))).
Proof.
  destruct (Z.eqb_spec (log_freq (self s)) 0) as [Hf|Hf].
  - destruct (fst (iter_loader C TrainLoader (model_train C (world s))))
      as [|b rest] eqn:Eb.
    + destruct (train_one_epoch_empty epoch s Eb) as [w' E]. rewrite E.
      reflexivity.
    + destruct (train_one_epoch_raise epoch s Hf) as [w' E].
      { rewrite Eb. discriminate. }
      rewrite E. reflexivity.
  - destruct (train_one_epoch_run epoch s Hf)
      as [evs [ls [accs [w' [E [_ [_ [Hst _]]]]]]]].
    rewrite E. unfold events_of. cbn [fst].
    rewrite !filter_app, Hst. simpl. rewrite app_nil_r.
    apply (flat_map_const_repeat batch_steps).
Qed.

(** ** Logging within a training epoch *)

(** C5, as amended: with a [log_freq] that is not 0, an iteration of the
    loop of [train_one_epoch] makes the calls of its batch and then logs if
    and only if it was entered with [log_iter % log_freq == 0].  It then
    makes exactly three logging calls: the batch's own accuracy and the
    batch's own loss go to the metrics sink, under Train/Accuracy_iter and
    Train/Loss_iter at step [log_iter]; the text log gets the epoch, the
    position of the batch, the means of the epoch's loss and accuracy
    histories up to and including this batch, and the learning rate read at
    the start of the iteration.  Every iteration ends with [log_iter] one
    higher.  ([n] is the number of batches of the loader, which is not 0
    inside the loop.) *)
Theorem train_batch_logging (epoch n idx : Z) (batch : Inputs C * Targets C)
    (lh ah : list pyfloat) (s : state C) :
  log_freq (self s) <> 0 ->
  n <> 0 ->
  exists (logits : Logits C) (loss : LossT C) (w' : World C),
    train_batch epoch n idx batch (lh, ah) s =
      ([EvMixForward; EvModelCall Live; EvMixCriterion;
        EvZeroGrad; EvBackward; EvOptimizerStep; EvEmaUpdate]
       ++ (if log_iter (self s) mod log_freq (self s) =? 0
           then
             [EvAddScalar "Train/Accuracy_iter"
                (batch_accuracy logits (targets_to_device C (snd batch)))
                (log_iter (self s));
              EvAddScalar "Train/Loss_iter" (loss_item C loss)
                (log_iter (self s));
              EvLoggerInfo
                (MsgTrainIter epoch idx n
                   (Num (100 * inject_Z idx / inject_Z n))
                   (np_mean C (lh ++ [loss_item C loss]))
                   (np_mean C (ah ++ [batch_accuracy logits
                                   (targets_to_device C (snd batch))]))
                   (optimizer_lr C (world s)))]
           else []),
       Ok (lh ++ [loss_item C loss],
           ah ++ [batch_accuracy logits (targets_to_device C (snd batch))]),
       Build_state C (set_log_iter (self s) (log_iter (self s) + 1)) w').
Proof.
  intros Hf Hn.
  destruct (train_batch_run epoch n idx batch lh ah s Hf Hn)
    as [logits [loss [w' E]]].
  exists logits, loss, w'. exact E.
Qed.

(** ** Range of the accuracy *)

Lemma batch_accuracy_in_unit_interval (N32 : nat)
    (batch : Inputs C * Targets C) (a : pyfloat) :
  sound_up_to (float32 C) N32 ->
  has_samples N32 batch -> accuracy_of_batch batch a -> in_unit_interval a.
Proof.
  intros Hs Hmask [logits ->]. unfold batch_accuracy.
  destruct (Hmask logits) as [Hne Hlen].
  apply (mean_in_unit_interval (float32 C) N32); [exact Hs| | |].
  - destruct (correct_mask C logits (targets_to_device C (snd batch)));
      [congruence|discriminate].
  - rewrite length_map. exact Hlen.
  - apply Forall_forall. intros x Hx. apply in_map_iff in Hx.
    destruct Hx as [b [<- _]]. apply in_unit_interval_bool_to_float.
Qed.

Lemma epoch_accuracy_in_unit_interval (N32 N64 : nat)
    (batches : list (Inputs C * Targets C)) (accs : list pyfloat) :
  sound_up_to (float32 C) N32 ->
  sound_up_to (float64 C) N64 ->
  batches <> [] ->
  (List.length batches <= N64)%nat ->
  Forall (has_samples N32) batches ->
  Forall2 accuracy_of_batch batches accs ->
  in_unit_interval (np_mean C accs).
Proof.
  intros H32 H64 Hne Hlen Hs Hall. unfold np_mean.
  apply (mean_in_unit_interval (float64 C) N64); [exact H64| | |].
  - destruct Hall; [congruence|discriminate].
  - rewrite <- (Forall2_length Hall). exact Hlen.
  - clear Hne Hlen. induction Hall as [|batch a batches accs Ha Hall IH].
    + constructor.
    + inversion Hs; subst. constructor.
      * eapply batch_accuracy_in_unit_interval; eassumption.
      * apply IH. assumption.
Qed.


(** ** The best-metric flags of a checkpoint *)

(** C2: in an epoch of [run] (entered with a non-zero [log_freq], so that
    training returns), [save_checkpoint] is called exactly once, and its
    [is_best] flag is true if and only if the accuracy returned by this
    epoch's [valid_one_epoch(epoch)] is strictly greater than
    [best_model_metric] as stored before the comparison; likewise
    [is_ema_best], for the accuracy returned by
    [valid_one_epoch(epoch, isEMA=True)] and [best_model_ema_metric].
    Training and validation leave both stored values as the epoch found
    them. *)
Theorem run_epoch_is_best_iff (epoch : Z) (s : state C) :
  log_freq (self s) <> 0 ->
  exists evT tm s1 evV vm s2 evE vem s3 is_best is_ema_best best best_ema,
    train_one_epoch epoch
      (Build_state C (self s) (scheduler_step C (epoch + 1) (world s))) =
      (evT, Ok tm, s1) /\
    valid_one_epoch epoch false s1 = (evV, Ok vm, s2) /\
    valid_one_epoch epoch true s2 = (evE, Ok vem, s3) /\
    best_model_metric (self s3) = best_model_metric (self s) /\
    best_model_ema_metric (self s3) = best_model_ema_metric (self s) /\
    result_of (run_epoch epoch s) = Ok tt /\
    checkpoints (events_of (run_epoch epoch s)) =
      [(epoch, is_best, is_ema_best, best, best_ema)] /\
    (is_best = true <->
     fgt (Accuracy vm) (best_model_metric (self s)) = true) /\
    (is_ema_best = true <->
     fgt (Accuracy vem) (best_model_ema_metric (self s)) = true).
Proof.
  intros Hf.
  destruct (train_one_epoch_run epoch
              (Build_state C (self s)
                 (scheduler_step C (epoch + 1) (world s))) Hf)
    as [evs [ls [accs [w1 [ET [_ [_ [_ HphT]]]]]]]].
  destruct (run_epoch_after_train epoch s _ _ _ _ ET eq_refl)
    as [evV [vm [w2 [evE [vem [w3 [EV [EE [HphV [HphE E]]]]]]]]]].
  do 9 eexists.
  exists (fgt (Accuracy vm) (best_model_metric (self s))),
    (fgt (Accuracy vem) (best_model_ema_metric (self s))).
  do 2 eexists.
  split; [exact ET|]. split; [exact EV|]. split; [exact EE|].
  split; [reflexivity|]. split; [reflexivity|].
  rewrite E. unfold result_of, events_of. cbn [fst snd].
  split; [reflexivity|]. split; [|split; reflexivity].
  rewrite !checkpoints_app.
  rewrite (checkpoints_nil_of_phases evV)
    by (rewrite HphV; simpl; intros e [H|[]]; discriminate).
  rewrite (checkpoints_nil_of_phases evE)
    by (rewrite HphE; simpl; intros e [H|[]]; discriminate).
  rewrite (checkpoints_nil_of_phases evs)
    by (rewrite HphT; intros e []).
  reflexivity.
Qed.

(** ** Monotonicity of the best metrics *)

Lemma flt_trans (a b c : pyfloat) :
  flt a b = true -> flt b c = true -> flt a c = true.
Proof.
  destruct a as [| | |x], b as [| | |y], c as [| | |z]; simpl;
    try discriminate; try reflexivity.
  rewrite !negb_true_iff. intros H1 H2.
  destruct (Qle_bool z x) eqn:E; [|reflexivity].
  apply Qle_bool_iff in E.
  destruct (Qlt_le_dec x y) as [Hxy|Hyx].
  - destruct (Qlt_le_dec y z) as [Hyz|Hzy].
    + exfalso. apply (Qlt_irrefl x).
      apply Qlt_le_trans with z; [|exact E].
      apply Qlt_trans with y; assumption.
    + apply Qle_bool_iff in Hzy. congruence.
  - apply Qle_bool_iff in Hyx. congruence.
Qed.

Lemma same_or_greater_refl (a : pyfloat) : same_or_greater a a.
Proof. left. reflexivity. Qed.

Lemma same_or_greater_trans (a b c : pyfloat) :
  same_or_greater a b -> same_or_greater b c -> same_or_greater a c.
Proof.
  unfold same_or_greater, fgt. intros [->|H1] [->|H2]; auto.
  right. eapply flt_trans; eassumption.
Qed.

(** On a stored number, being the same or strictly greater is [>=]. *)
Lemma same_or_greater_fle (a b : pyfloat) :
  is_nan a = false -> same_or_greater a b -> fle a b = true.
Proof.
  intros Hn [->|H].
  - apply fle_refl. exact Hn.
  - apply fgt_fle. exact H.
Qed.

Lemma same_or_greater_not_nan (a b : pyfloat) :
  is_nan a = false -> same_or_greater a b -> is_nan b = false.
Proof.
  intros Hn [->|H].
  - exact Hn.
  - eapply fgt_not_nan. exact H.
Qed.

Lemma best_update_same_or_greater (acc best : pyfloat) :
  same_or_greater best (if fgt acc best then acc else best).
Proof.
  destruct (fgt acc best) eqn:E.
  - right. exact E.
  - left. reflexivity.
Qed.

Lemma run_epoch_bests_from (b be : pyfloat) (epoch : Z) (s : state C) :
  bests_from b be s -> bests_from b be (state_of (run_epoch epoch s)).
Proof.
  intros [Hb Hbe].
  destruct (run_epoch_bests epoch s) as [acc [acc_ema [E1 E2]]].
  unfold bests_from. rewrite E1, E2. split.
  - eapply same_or_greater_trans; [exact Hb|].
    apply best_update_same_or_greater.
  - eapply same_or_greater_trans; [exact Hbe|].
    apply best_update_same_or_greater.
Qed.

Lemma for_each_state_invariant {A : Type} (P : state C -> Prop)
    (body : A -> M C unit) :
  (forall x s, P s -> P (state_of (body x s))) ->
  forall (l : list A) (s : state C), P s -> P (state_of (for_each l body s)).
Proof.
  intros Hbody l. induction l as [|x rest IH]; intros s Hs.
  - exact Hs.
  - simpl. unfold bind. specialize (Hbody x s Hs).
    destruct (body x s) as [[ev1 [[]|e]] s1]; unfold state_of in *;
      simpl in *.
    + specialize (IH s1 Hbody).
      destruct (for_each rest body s1) as [[ev2 r2] s2]. exact IH.
    + exact Hbody.
Qed.

Lemma run_bests_from (s : state C) :
  bests_from (best_model_metric (self s)) (best_model_ema_metric (self s))
    (state_of (run s)).
Proof.
  unfold run. unfold bind, act, get_self. simpl.
  set (s0 := Build_state C (self s)
               (optimizer_step C (optimizer_zero_grad C (world s)))).
  assert (H1 : bests_from (best_model_metric (self s))
                 (best_model_ema_metric (self s)) s0).
  { split; apply same_or_greater_refl. }
  pose proof (for_each_state_invariant
                (bests_from (best_model_metric (self s))
                   (best_model_ema_metric (self s)))
                run_epoch
                (fun x st => run_epoch_bests_from _ _ x st)
                (py_range (start_epoch (self s)) (max_epoch (self s)))
                s0 H1) as H2.
  destruct (for_each (py_range (start_epoch (self s)) (max_epoch (self s)))
              run_epoch s0) as [[ev r] s'].
  exact H2.
Qed.

(** C3: each epoch of [run], from whatever state it starts in and whether
    it ends or raises, leaves [best_model_metric] and
    [best_model_ema_metric] either as they were or strictly greater; the
    same holds between the start and the end of [run].  When the stored
    values are numbers (as the initial 0 is) they stay numbers, and this is
    [>=] on floats: after each epoch, and after the whole run, each is
    greater than or equal to its value before. *)
Theorem best_metrics_non_decreasing (s : state C) :
  (forall epoch : Z,
     same_or_greater (best_model_metric (self s))
       (best_model_metric (self (state_of (run_epoch epoch s)))) /\
     same_or_greater (best_model_ema_metric (self s))
       (best_model_ema_metric (self (state_of (run_epoch epoch s))))) /\
  same_or_greater (best_model_metric (self s))
    (best_model_metric (self (state_of (run s)))) /\
  same_or_greater (best_model_ema_metric (self s))
    (best_model_ema_metric (self (state_of (run s)))) /\
  (is_nan (best_model_metric (self s)) = false ->
   is_nan (best_model_ema_metric (self s)) = false ->
   (forall epoch : Z,
      fge (best_model_metric (self (state_of (run_epoch epoch s))))
        (best_model_metric (self s)) = true /\
      fge (best_model_ema_metric (self (state_of (run_epoch epoch s))))
        (best_model_ema_metric (self s)) = true /\
      is_nan (best_model_metric (self (state_of (run_epoch epoch s))))
        = false /\
      is_nan (best_model_ema_metric (self (state_of (run_epoch epoch s))))
        = false) /\
   fge (best_model_metric (self (state_of (run s))))
     (best_model_metric (self s)) = true /\
   fge (best_model_ema_metric (self (state_of (run s))))
     (best_model_ema_metric (self s)) = true).
Proof.
  assert (Hepoch : forall epoch,
            bests_from (best_model_metric (self s))
              (best_model_ema_metric (self s))
              (state_of (run_epoch epoch s))).
  { intros epoch. apply run_epoch_bests_from.
    split; apply same_or_greater_refl. }
  pose proof (run_bests_from s) as [Hrun1 Hrun2].
  split; [exact Hepoch|]. split; [exact Hrun1|]. split; [exact Hrun2|].
  intros Hn Hne. unfold fge. split; [|split].
  - intros epoch. destruct (Hepoch epoch) as [H1 H2].
    split; [|split; [|split]].
    + apply same_or_greater_fle; assumption.
    + apply same_or_greater_fle; assumption.
    + exact (same_or_greater_not_nan _ _ Hn H1).
    + exact (same_or_greater_not_nan _ _ Hne H2).
  - apply same_or_greater_fle; assumption.
  - apply same_or_greater_fle; assumption.
Qed.

(** ** The phases of [run] *)

Lemma for_each_run_epoch (l : list Z) :
  forall s : state C,
  log_freq (self s) <> 0 ->
  exists evs s',
    for_each l run_epoch s = (evs, Ok tt, s') /\
    phases evs = flat_map epoch_phases l /\
    log_freq (self s') = log_freq (self s).
Proof.
  induction l as [|epoch rest IH]; intros s Hf.
  - exists [], s. repeat split.
  - destruct (run_epoch_run epoch s Hf) as [ev1 [s1 [E1 [Hp1 Hf1]]]].
    destruct (IH s1) as [ev2 [s2 [E2 [Hp2 Hf2]]]]; [congruence|].
    exists (ev1 ++ ev2), s2. split; [|split].
    + simpl. erewrite bind_ok; [reflexivity|exact E1|exact E2].
    + rewrite phases_app, Hp1, Hp2. reflexivity.
    + congruence.
Qed.

(** C7, as amended: with a non-zero [log_freq] (so that no logging test
    raises), [run] returns, and after its initial optimizer calls it goes
    through the epochs [start_epoch], ..., [max_epoch - 1] in turn, which
    are [max_epoch - start_epoch] epochs when [max_epoch > start_epoch]; in
    each epoch the phases are, in this order: scheduler step (with argument
    [epoch + 1]), [train_one_epoch], [valid_one_epoch] with [isEMA] false,
    [valid_one_epoch] with [isEMA] true, garbage collection, the two
    best-metric comparisons, the checkpoint save, and [write_log].  With
    [log_freq = 0] the first trained batch ends the run. *)
Theorem run_phases (s : state C) :
  log_freq (self s) <> 0 ->
  result_of (run s) = Ok tt /\
  phases (events_of (run s)) =
    flat_map
      (fun epoch =>
         [PhSchedulerStep (epoch + 1); PhTrain epoch;
          PhValid epoch false; PhValid epoch true; PhGc;
          PhCompare BestModel; PhCompare BestModelEma;
          PhSave epoch; PhLog epoch])
      (py_range (start_epoch (self s)) (max_epoch (self s))) /\
  (max_epoch (self s) > start_epoch (self s) ->
   Z.of_nat
     (List.length (py_range (start_epoch (self s)) (max_epoch (self s)))) =
   max_epoch (self s) - start_epoch (self s)).
Proof.
  intros Hf.
  destruct (for_each_run_epoch
              (py_range (start_epoch (self s)) (max_epoch (self s)))
              (Build_state C (self s)
                 (optimizer_step C (optimizer_zero_grad C (world s)))) Hf)
    as [evs [s' [E [Hp _]]]].
  unfold run. unfold bind, act, get_self. simpl. rewrite E.
  unfold result_of, events_of. simpl.
  split; [reflexivity|]. split.
  - exact Hp.
  - intros Hlt. rewrite py_range_length. lia.
Qed.

End Properties.

(** * The properties on the concrete collaborators *)

(** The scenario of the specification: batches of accuracy 0.6 and 0.8 give
    an epoch accuracy of 0.7. *)
Example mean_of_two_batch_accuracies :
  same_value (mean exact [Num (6 # 10); Num (8 # 10)]) (Num (7 # 10)).
Proof. reflexivity. Qed.

(** [valid_one_epoch(0, isEMA=True)] evaluates and calls the live model
    only, and returns the live model's accuracy (3 of 3), not the EMA
    model's (0 of 3). *)
Example demo_isEMA_true_validates_live_model :
  models_used (events_of (valid_one_epoch 0 true Demo.start)) =
    [Live; Live; Live; Live] /\
  result_of (valid_one_epoch 0 true Demo.start) =
    Ok {| Accuracy := Num (3 # 3); Loss := Num (6 # 3) |}.
Proof. split; reflexivity. Qed.

(** The update calls of the two training batches of the demo epoch. *)
Example demo_update_calls :
  filter is_step_event (events_of (train_one_epoch 0 Demo.start)) =
    [EvModelCall Live; EvZeroGrad; EvBackward; EvOptimizerStep; EvEmaUpdate;
     EvModelCall Live; EvZeroGrad; EvBackward; EvOptimizerStep; EvEmaUpdate].
Proof. reflexivity. Qed.

(** A trainer as [__init__] leaves it logs its first iteration. *)
Lemma fresh_trainer_logs_first_iteration
    dir e0 e1 dev pf mp lf b be :
  let t := Trainer_init dir e0 e1 dev pf mp lf b be in
  log_iter t = 0 /\ log_iter t mod log_freq t = 0.
Proof. simpl. split; [reflexivity|apply Zmod_0_l]. Qed.

(** The two epochs of the demo run, phase by phase. *)
Example demo_run_phases :
  phases (events_of (run Demo.start)) =
    [PhSchedulerStep 1; PhTrain 0; PhValid 0 false; PhValid 0 true; PhGc;
     PhCompare BestModel; PhCompare BestModelEma; PhSave 0; PhLog 0;
     PhSchedulerStep 2; PhTrain 1; PhValid 1 false; PhValid 1 true; PhGc;
     PhCompare BestModel; PhCompare BestModelEma; PhSave 1; PhLog 1].
Proof. reflexivity. Qed.

(** The checkpoints of the demo run.  The call with [isEMA] false validates
    the EMA model (accuracy 0, never above the initial best 0); the call
    with [isEMA] true validates the live model (accuracy 1), which sets
    [is_ema_best] in epoch 0 and not in epoch 1. *)
Example demo_run_checkpoints :
  checkpoints (events_of (run Demo.start)) =
    [(0, false, true, Num 0, Num (3 # 3));
     (1, false, false, Num 0, Num (3 # 3))].
Proof. reflexivity. Qed.

(** With [log_freq = 0] the first iteration raises after its EMA update. *)
Example demo_log_freq_zero_raises :
  let s := Demo.initial Demo.loader Demo.log_freq_zero_trainer in
  result_of (train_one_epoch 0 s) = Raise ZeroDivisionError /\
  filter is_step_event (events_of (train_one_epoch 0 s)) =
    [EvModelCall Live; EvZeroGrad; EvBackward; EvOptimizerStep; EvEmaUpdate].
Proof. split; reflexivity. Qed.

Lemma run_epoch_is_best_iff_witness :
  log_freq (self Demo.start) <> 0 /\
  exists evT tm s1 evV vm s2 evE vem s3 is_best is_ema_best best best_ema,
    train_one_epoch 0
      (Build_state (Demo.collaborators Demo.loader) (self Demo.start)
         (scheduler_step (Demo.collaborators Demo.loader) (0 + 1)
            (world Demo.start))) =
      (evT, Ok tm, s1) /\
    valid_one_epoch 0 false s1 = (evV, Ok vm, s2) /\
    valid_one_epoch 0 true s2 = (evE, Ok vem, s3) /\
    best_model_metric (self s3) = best_model_metric (self Demo.start) /\
    best_model_ema_metric (self s3) =
      best_model_ema_metric (self Demo.start) /\
    result_of (run_epoch 0 Demo.start) = Ok tt /\
    checkpoints (events_of (run_epoch 0 Demo.start)) =
      [(0, is_best, is_ema_best, best, best_ema)] /\
    (is_best = true <->
     fgt (Accuracy vm) (best_model_metric (self Demo.start)) = true) /\
    (is_ema_best = true <->
     fgt (Accuracy vem) (best_model_ema_metric (self Demo.start)) = true).
Proof.
  split.
  - simpl. lia.
  - apply (run_epoch_is_best_iff 0 Demo.start). simpl. lia.
Defined.

Lemma best_metrics_non_decreasing_witness :
  is_nan (best_model_metric (self Demo.start)) = false /\
  is_nan (best_model_ema_metric (self Demo.start)) = false /\
  (forall epoch : Z,
     fge (best_model_metric (self (state_of (run_epoch epoch Demo.start))))
       (best_model_metric (self Demo.start)) = true /\
     fge (best_model_ema_metric
            (self (state_of (run_epoch epoch Demo.start))))
       (best_model_ema_metric (self Demo.start)) = true /\
     is_nan (best_model_metric
               (self (state_of (run_epoch epoch Demo.start)))) = false /\
     is_nan (best_model_ema_metric
               (self (state_of (run_epoch epoch Demo.start)))) = false) /\
  fge (best_model_metric (self (state_of (run Demo.start))))
    (best_model_metric (self Demo.start)) = true /\
  fge (best_model_ema_metric (self (state_of (run Demo.start))))
    (best_model_ema_metric (self Demo.start)) = true.
Proof.
  split; [reflexivity|]. split; [reflexivity|].
  destruct (best_metrics_non_decreasing Demo.start) as [_ [_ [_ H]]].
  exact (H eq_refl eq_refl).
Defined.

Lemma train_batch_logging_witness :
  log_freq (self Demo.second_iteration) <> 0 /\
  2 <> 0 /\
  exists (logits : Z) (loss : Q) (w' : Z),
    train_batch (C := Demo.collaborators Demo.loader) 0 2 1 (2, 0)
      ([Num 2], [Num 1]) Demo.second_iteration =
      ([EvMixForward; EvModelCall Live; EvMixCriterion;
        EvZeroGrad; EvBackward; EvOptimizerStep; EvEmaUpdate]
       ++ (if log_iter (self Demo.second_iteration)
                mod log_freq (self Demo.second_iteration) =? 0
           then
             [EvAddScalar "Train/Accuracy_iter"
                (batch_accuracy (C := Demo.collaborators Demo.loader) logits
                   (targets_to_device (Demo.collaborators Demo.loader)
                      (snd (2, 0))))
                (log_iter (self Demo.second_iteration));
              EvAddScalar "Train/Loss_iter"
                (loss_item (Demo.collaborators Demo.loader) loss)
                (log_iter (self Demo.second_iteration));
              EvLoggerInfo
                (MsgTrainIter 0 1 2
                   (Num (100 * inject_Z 1 / inject_Z 2))
                   (np_mean (Demo.collaborators Demo.loader) ([Num 2] ++
                          [loss_item (Demo.collaborators Demo.loader) loss]))
                   (np_mean (Demo.collaborators Demo.loader) ([Num 1] ++
                          [batch_accuracy
                             (C := Demo.collaborators Demo.loader) logits
                             (targets_to_device
                                (Demo.collaborators Demo.loader)
                                (snd (2, 0)))]))
                   (optimizer_lr (Demo.collaborators Demo.loader)
                      (world Demo.second_iteration)))]
           else []),
       Ok ([Num 2] ++ [loss_item (Demo.collaborators Demo.loader) loss],
           [Num 1] ++
           [batch_accuracy (C := Demo.collaborators Demo.loader) logits
              (targets_to_device (Demo.collaborators Demo.loader)
                 (snd (2, 0)))]),
       Build_state (Demo.collaborators Demo.loader)
         (set_log_iter (self Demo.second_iteration)
            (log_iter (self Demo.second_iteration) + 1)) w').
Proof.
  split; [simpl; lia|]. split; [lia|].
  apply (@train_batch_logging (Demo.collaborators Demo.loader) 0 2 1 (2, 0)
           [Num 2] [Num 1] Demo.second_iteration).
  - simpl. lia.
  - lia.
Defined.


Lemma run_phases_witness :
  log_freq (self Demo.start) <> 0 /\
  max_epoch (self Demo.start) > start_epoch (self Demo.start) /\
  result_of (run Demo.start) = Ok tt /\
  phases (events_of (run Demo.start)) =
    flat_map
      (fun epoch =>
         [PhSchedulerStep (epoch + 1); PhTrain epoch;
          PhValid epoch false; PhValid epoch true; PhGc;
          PhCompare BestModel; PhCompare BestModelEma;
          PhSave epoch; PhLog epoch])
      (py_range (start_epoch (self Demo.start))
         (max_epoch (self Demo.start))) /\
  Z.of_nat
    (List.length
       (py_range (start_epoch (self Demo.start))
          (max_epoch (self Demo.start)))) =
  max_epoch (self Demo.start) - start_epoch (self Demo.start).
Proof.
  assert (Hf : log_freq (self Demo.start) <> 0) by (simpl; lia).
  assert (Hlt : max_epoch (self Demo.start) > start_epoch (self Demo.start))
    by (simpl; lia).
  destruct (run_phases Demo.start Hf) as [Hr [Hp Hn]].
  split; [exact Hf|]. split; [exact Hlt|]. split; [exact Hr|].
  split; [exact Hp|exact (Hn Hlt)].
Defined.

Lemma run_without_epochs_witness :
  max_epoch (self Demo.start_idle) = start_epoch (self Demo.start_idle) /\
  run Demo.start_idle =
    ([EvZeroGrad; EvOptimizerStep], Ok tt,
     Build_state (Demo.collaborators Demo.loader) (self Demo.start_idle)
       (optimizer_step (Demo.collaborators Demo.loader)
          (optimizer_zero_grad (Demo.collaborators Demo.loader)
             (world Demo.start_idle)))).
Proof.
  split; [reflexivity|].
  apply (run_without_epochs Demo.start_idle). reflexivity.
Defined.

Lemma empty_loader_metrics_are_nan_witness :
  fst (iter_loader (Demo.collaborators Demo.empty_loader) ValidLoader
         (model_eval (Demo.collaborators Demo.empty_loader)
            (select_model false) (world Demo.start_empty))) = [] /\
  fst (iter_loader (Demo.collaborators Demo.empty_loader) TrainLoader
         (model_train (Demo.collaborators Demo.empty_loader)
            (world Demo.start_empty))) = [] /\
  result_of (valid_one_epoch 0 false Demo.start_empty) =
    Ok {| Accuracy := NaN; Loss := NaN |} /\
  result_of (train_one_epoch 0 Demo.start_empty) =
    Ok {| Accuracy := NaN; Loss := NaN |} /\
  ~ in_unit_interval NaN.
Proof.
  destruct (empty_loader_metrics_are_nan 0 false Demo.start_empty)
    as [HV [HT Hnan]].
  split; [reflexivity|]. split; [reflexivity|].
  split; [exact (HV eq_refl)|]. split; [exact (HT eq_refl)|exact Hnan].
Defined.

(** The logging claim as the specification words it fails: in the second
    training iteration of the demo epoch (logged, since [log_freq] is 1)
    the batch accuracy is 0, the batch loss is 4 and the learning rate is
    1/10.  The metrics sink receives 1, 2, 0
    and 4 during the epoch but never the learning rate, and the text log
    carries the running means 1/2 and 3, not 0 and 4. *)
Lemma train_logging_counterexample :
  ~ logs_instantaneous_values_to_both
      (events_of (train_one_epoch 0 Demo.start))
      (Num 0) (Num 4) (Num (1 # 10)).
Proof.
  intros [_ [_ [Hlr _]]].
  destruct Hlr as [tag [v [step [Hin Hv]]]].
  vm_compute in Hin.
  repeat (destruct Hin as [Hin|Hin];
          [try discriminate Hin; inversion Hin; subst v;
           vm_compute in Hv; discriminate Hv|]).
  exact Hin.
Qed.

(** Batches of several samples: over two validation batches of five
    samples with 3 and 4 correct answers the Accuracy is the mean of 3/5
    and 4/5 (35/50, that is 0.7), and the Loss the mean of the batch
    losses 9/5 and 1. *)
Example valid_one_epoch_five_samples :
  result_of (valid_one_epoch 0 true Cases.start_five_sample) =
    Ok {| Accuracy := Num (35 # 50); Loss := Num (70 # 50) |}.
Proof. vm_compute. reflexivity. Qed.


(** The phase claim as the specification words it fails.  The trainer of
    [Cases.start_log_freq_zero] has [max_epoch = 2 > 0 = start_epoch] and
    [log_freq = 0]: [run] raises ZeroDivisionError at the logging test of
    the first training batch of epoch 0, after the phases scheduler step
    and [train_one_epoch] of that epoch; no validation follows and epoch 1
    never starts. *)
Lemma run_phases_counterexample :
  max_epoch (self Cases.start_log_freq_zero) >
    start_epoch (self Cases.start_log_freq_zero) /\
  result_of (run Cases.start_log_freq_zero) = Raise ZeroDivisionError /\
  phases (events_of (run Cases.start_log_freq_zero)) =
    [PhSchedulerStep 1; PhTrain 0] /\
  ~ (max_epoch (self Cases.start_log_freq_zero) >
       start_epoch (self Cases.start_log_freq_zero) ->
     phases (events_of (run Cases.start_log_freq_zero)) =
       flat_map epoch_phases
         (py_range (start_epoch (self Cases.start_log_freq_zero))
            (max_epoch (self Cases.start_log_freq_zero)))).
Proof.
  assert (Hlt : max_epoch (self Cases.start_log_freq_zero) >
                  start_epoch (self Cases.start_log_freq_zero))
    by reflexivity.
  split; [exact Hlt|].
  split; [vm_compute; reflexivity|].
  split; [vm_compute; reflexivity|].
  intros H. specialize (H Hlt). vm_compute in H. discriminate H.
Qed.

(** * Further properties of the trainer *)

Lemma py_range_cons (a b : Z) :
  a < b -> py_range a b = a :: py_range (a + 1) b.
Proof.
  intros H. unfold py_range.
  replace (Z.to_nat (b - a)) with (S (Z.to_nat (b - (a + 1)))) by lia.
  simpl. rewrite Z.add_0_r. f_equal.
  rewrite <- seq_shift, map_map. apply map_ext. intros i. lia.
Qed.

Lemma fgt_irrefl (a : pyfloat) : fgt a a = false.
Proof.
  unfold fgt. destruct a as [| | |x]; simpl; try reflexivity.
  apply negb_false_iff. apply Qle_bool_iff. apply Qle_refl.
Qed.

Lemma fgt_nan_l (b : pyfloat) : fgt NaN b = false.
Proof. unfold fgt. destruct b; reflexivity. Qed.

Lemma flat_map_filter_view {A B : Type} (view : A -> list B)
    (keep : A -> bool) (l : list A) :
  (forall a, keep a = false -> view a = []) ->
  flat_map view (filter keep l) = flat_map view l.
Proof.
  intros H. induction l as [|a l IH]; [reflexivity|].
  simpl. destruct (keep a) eqn:E.
  - simpl. rewrite IH. reflexivity.
  - rewrite IH, (H a E). reflexivity.
Qed.

Lemma filter_filter_sub {A : Type} (p q : A -> bool) (l : list A) :
  (forall a, p a = true -> q a = true) ->
  filter p (filter q l) = filter p l.
Proof.
  intros H. induction l as [|a l IH]; [reflexivity|].
  simpl. destruct (q a) eqn:Eq; simpl.
  - rewrite IH. reflexivity.
  - rewrite IH. destruct (p a) eqn:Ep; [|reflexivity].
    rewrite (H a Ep) in Eq. discriminate.
Qed.

Section Coverage.

Context {C : Collaborators}.

Local Open Scope engine_scope.

Lemma scalar_steps_app (tag : string) (l1 l2 : list event) :
  scalar_steps tag (l1 ++ l2) = scalar_steps tag l1 ++ scalar_steps tag l2.
Proof. unfold scalar_steps. apply flat_map_app. Qed.

(** The loop of [train_one_epoch], seen through its compute calls and
    through the steps of the two per-iteration scalars. *)
Lemma train_loop_trace (epoch n : Z) (batches : list (Inputs C * Targets C)) :
  n <> 0 ->
  forall (idx : Z) (lh ah : list pyfloat) (s : state C),
  log_freq (self s) <> 0 ->
  exists evs hist' s',
    train_loop epoch n idx batches (lh, ah) s = (evs, Ok hist', s') /\
    filter is_compute_event evs = flat_map (fun _ => batch_calls) batches /\
    scalar_steps "Train/Accuracy_iter" evs =
      filter (fun i => i mod log_freq (self s) =? 0)
        (py_range (log_iter (self s))
           (log_iter (self s) + Z.of_nat (List.length batches))) /\
    scalar_steps "Train/Loss_iter" evs =
      filter (fun i => i mod log_freq (self s) =? 0)
        (py_range (log_iter (self s))
           (log_iter (self s) + Z.of_nat (List.length batches))).
Proof.
  intros Hn.
  induction batches as [|batch rest IH]; intros idx lh ah s Hf.
  - exists [], (lh, ah), s. simpl. rewrite Z.add_0_r.
    rewrite py_range_empty by lia. auto.
  - destruct (train_batch_run epoch n idx batch lh ah s Hf Hn)
      as [logits [loss [w1 E1]]].
    match type of E1 with _ = (?ev1, Ok (?lh1, ?ah1), ?s1) =>
      destruct (IH (idx + 1) lh1 ah1 s1 Hf)
        as [evs [hist' [s' [E2 [Hc [Ha Hl]]]]]];
      exists (ev1 ++ evs), hist', s'
    end.
    simpl self in Ha, Hl. simpl log_iter in Ha, Hl. simpl log_freq in Ha, Hl.
    change (List.length (batch :: rest)) with (S (List.length rest)).
    rewrite Nat2Z.inj_succ.
    rewrite (py_range_cons (log_iter (self s))) by lia.
    replace (log_iter (self s) + Z.succ (Z.of_nat (List.length rest)))
      with (log_iter (self s) + 1 + Z.of_nat (List.length rest)) by lia.
    split; [|split; [|split]].
    + simpl train_loop. erewrite bind_ok; [reflexivity|exact E1|exact E2].
    + rewrite <- app_assoc, filter_app, filter_app, Hc.
      destruct (log_iter (self s) mod log_freq (self s) =? 0); reflexivity.
    + rewrite !scalar_steps_app, Ha. simpl filter.
      destruct (log_iter (self s) mod log_freq (self s) =? 0); reflexivity.
    + rewrite !scalar_steps_app, Hl. simpl filter.
      destruct (log_iter (self s) mod log_freq (self s) =? 0); reflexivity.
Qed.

(** ** The iteration counter and the per-iteration scalars *)

(** X1: a training epoch entered with a non-zero [log_freq] returns, and
    the trainer it leaves differs from the one it found in [log_iter] only,
    which has advanced by the number of batches of the training loader:
    [log_iter] is never reset and counts the batches trained so far. *)
Theorem train_one_epoch_advances_log_iter (epoch : Z) (s : state C) :
  log_freq (self s) <> 0 ->
  (exists m, result_of (train_one_epoch epoch s) = Ok m) /\
  self (state_of (train_one_epoch epoch s)) =
    set_log_iter (self s)
      (log_iter (self s) +
       Z.of_nat
         (List.length
            (fst (iter_loader C TrainLoader (model_train C (world s)))))).
Proof.
  intros Hf.
  destruct (train_one_epoch_run epoch s Hf) as [evs [ls [accs [w' [E _]]]]].
  rewrite E. split; [eexists; reflexivity|reflexivity].
Qed.

Lemma train_one_epoch_trace (epoch : Z) (s : state C) :
  log_freq (self s) <> 0 ->
  filter is_compute_event (events_of (train_one_epoch epoch s)) =
    [EvCall (CallTrainOneEpoch epoch); EvModelTrain;
     EvIterLoader TrainLoader]
    ++ flat_map (fun _ => batch_calls)
         (fst (iter_loader C TrainLoader (model_train C (world s)))) /\
  scalar_steps "Train/Accuracy_iter" (events_of (train_one_epoch epoch s)) =
    filter (fun i => i mod log_freq (self s) =? 0)
      (py_range (log_iter (self s))
         (log_iter (self s) +
          Z.of_nat
            (List.length
               (fst (iter_loader C TrainLoader
                       (model_train C (world s))))))) /\
  scalar_steps "Train/Loss_iter" (events_of (train_one_epoch epoch s)) =
    filter (fun i => i mod log_freq (self s) =? 0)
      (py_range (log_iter (self s))
         (log_iter (self s) +
          Z.of_nat
            (List.length
               (fst (iter_loader C TrainLoader
                       (model_train C (world s))))))).
Proof.
  intros Hf. unfold train_one_epoch.
  unfold bind, ret, emit, call, act, logger_info. simpl.
  destruct (iter_loader C TrainLoader (model_train C (world s)))
    as [batches w1].
  simpl.
  assert (Hloop :
    exists evs hist' s',
      train_loop epoch (Z.of_nat (List.length batches)) 0 batches ([], [])
        (Build_state C (self s) w1) = (evs, Ok hist', s') /\
      filter is_compute_event evs = flat_map (fun _ => batch_calls) batches /\
      scalar_steps "Train/Accuracy_iter" evs =
        filter (fun i => i mod log_freq (self s) =? 0)
          (py_range (log_iter (self s))
             (log_iter (self s) + Z.of_nat (List.length batches))) /\
      scalar_steps "Train/Loss_iter" evs =
        filter (fun i => i mod log_freq (self s) =? 0)
          (py_range (log_iter (self s))
             (log_iter (self s) + Z.of_nat (List.length batches)))).
  { destruct batches as [|b rest].
    - exists [], ([], []), (Build_state C (self s) w1). simpl.
      rewrite Z.add_0_r, py_range_empty by lia. auto.
    - assert (Hn : Z.of_nat (List.length (b :: rest)) <> 0) by (simpl; lia).
      exact (train_loop_trace epoch _ (b :: rest) Hn 0 [] []
               (Build_state C (self s) w1) Hf). }
  destruct Hloop as [evs [[lh ah] [s' [E [Hc [Ha Hl]]]]]].
  rewrite E. unfold events_of. simpl.
  split; [|split].
  - rewrite filter_app, Hc. simpl. rewrite app_nil_r. reflexivity.
  - change (scalar_steps "Train/Accuracy_iter"
              (evs ++ [EvLoggerInfo (MsgFinish (np_mean C ah) (np_mean C lh))]) =
            filter (fun i => i mod log_freq (self s) =? 0)
              (py_range (log_iter (self s))
                 (log_iter (self s) + Z.of_nat (List.length batches)))).
    rewrite scalar_steps_app, Ha. apply app_nil_r.
  - change (scalar_steps "Train/Loss_iter"
              (evs ++ [EvLoggerInfo (MsgFinish (np_mean C ah) (np_mean C lh))]) =
            filter (fun i => i mod log_freq (self s) =? 0)
              (py_range (log_iter (self s))
                 (log_iter (self s) + Z.of_nat (List.length batches)))).
    rewrite scalar_steps_app, Hl. apply app_nil_r.
Qed.

(** X2: in a training epoch entered with a non-zero [log_freq], with
    [log_iter = i0] and a loader of [n] batches, the metrics sink receives
    a Train/Accuracy_iter scalar and a Train/Loss_iter scalar exactly at
    the steps [i] of [i0, ..., i0 + n - 1] with [i % log_freq == 0], each
    once and in increasing order: the cadence follows the global counter,
    not the position of the batch in the epoch. *)
Theorem train_one_epoch_logging_cadence (epoch : Z) (s : state C) :
  log_freq (self s) <> 0 ->
  scalar_steps "Train/Accuracy_iter" (events_of (train_one_epoch epoch s)) =
    filter (fun i => i mod log_freq (self s) =? 0)
      (py_range (log_iter (self s))
         (log_iter (self s) +
          Z.of_nat
            (List.length
               (fst (iter_loader C TrainLoader
                       (model_train C (world s))))))) /\
  scalar_steps "Train/Loss_iter" (events_of (train_one_epoch epoch s)) =
    filter (fun i => i mod log_freq (self s) =? 0)
      (py_range (log_iter (self s))
         (log_iter (self s) +
          Z.of_nat
            (List.length
               (fst (iter_loader C TrainLoader
                       (model_train C (world s))))))).
Proof.
  intros Hf. destruct (train_one_epoch_trace epoch s Hf) as [_ H]. exact H.
Qed.

(** ** What each pass calls *)

Lemma valid_one_epoch_quiet (epoch : Z) (isEMA : bool) (s : state C) :
  filter is_mix_event (events_of (valid_one_epoch epoch isEMA s)) = [] /\
  filter is_update_event (events_of (valid_one_epoch epoch isEMA s)) = [].
Proof.
  destruct (valid_one_epoch_run epoch isEMA s) as [ls [accs [w' [E _]]]].
  rewrite E. unfold events_of. cbn [fst].
  generalize (fst (iter_loader C ValidLoader
                     (model_eval C (select_model isEMA) (world s)))).
  intros l. rewrite !filter_app. simpl.
  split; induction l as [|x l IH]; simpl; auto.
Qed.

(** The compute calls of a training epoch, whether it returns or raises. *)
Lemma train_one_epoch_compute_view (epoch : Z) (s : state C) :
  exists k : nat,
    filter is_compute_event (events_of (train_one_epoch epoch s)) =
      [EvCall (CallTrainOneEpoch epoch); EvModelTrain;
       EvIterLoader TrainLoader]
      ++ List.concat (repeat batch_calls k).
Proof.
  destruct (Z.eq_dec (log_freq (self s)) 0) as [Hf|Hf].
  - destruct (fst (iter_loader C TrainLoader (model_train C (world s))))
      as [|b rest] eqn:Eb.
    + destruct (train_one_epoch_empty epoch s Eb) as [w' E]. rewrite E.
      exists 0%nat. reflexivity.
    + destruct (train_one_epoch_raise epoch s Hf) as [w' E].
      { rewrite Eb. discriminate. }
      rewrite E. exists 1%nat. reflexivity.
  - destruct (train_one_epoch_trace epoch s Hf) as [H _]. rewrite H.
    eexists. rewrite (flat_map_const_repeat batch_calls). reflexivity.
Qed.

Lemma validation_only_is_compute (e : event) :
  is_validation_only_event e = true -> is_compute_event e = true.
Proof. destruct e; simpl; intros H; try discriminate; reflexivity. Qed.

Lemma model_of_logging (e : event) :
  is_compute_event e = false -> model_of e = [].
Proof. destruct e; simpl; intros H; try discriminate; reflexivity. Qed.

(** X3: training and validation keep to their own calls.  A training
    epoch, whether it returns or raises, never puts a model in evaluation
    mode, never enters or leaves [no_grad], and calls no model but the live
    one.  A validation epoch never calls the mixing strategy (neither
    [mix.forward] nor [mix.mix_criterion]) and makes none of the update
    calls ([zero_grad], [backward], optimizer [step], EMA [update]). *)
Theorem passes_keep_to_their_calls (epoch : Z) (isEMA : bool) (s : state C) :
  filter is_validation_only_event (events_of (train_one_epoch epoch s)) = []
  /\
  Forall (fun m => m = Live)
    (models_used (events_of (train_one_epoch epoch s))) /\
  filter is_mix_event (events_of (valid_one_epoch epoch isEMA s)) = [] /\
  filter is_update_event (events_of (valid_one_epoch epoch isEMA s)) = [].
Proof.
  destruct (train_one_epoch_compute_view epoch s) as [k Hk].
  split; [|split; [|exact (valid_one_epoch_quiet epoch isEMA s)]].
  - rewrite <- (filter_filter_sub is_validation_only_event is_compute_event)
      by exact validation_only_is_compute.
    rewrite Hk. simpl. clear Hk.
    induction k as [|k IH]; [reflexivity|exact IH].
  - unfold models_used.
    rewrite <- (flat_map_filter_view model_of is_compute_event)
      by exact model_of_logging.
    rewrite Hk. simpl. constructor; [reflexivity|]. clear Hk.
    induction k as [|k IH]; simpl; [constructor|].
    constructor; [reflexivity|exact IH].
Qed.

(** ** A zero [log_freq] *)

(** X4: with [log_freq = 0], at least one epoch to run and a training
    loader that yields a batch, [run] raises ZeroDivisionError in its first
    epoch, at the logging test of the first batch: by then the weights and
    the EMA have been updated once on that batch, but no validation has
    run, no checkpoint has been written and the trainer's fields are
    unchanged. *)
Theorem run_raises_on_zero_log_freq (s : state C) :
  log_freq (self s) = 0 ->
  start_epoch (self s) < max_epoch (self s) ->
  fst (iter_loader C TrainLoader
         (model_train C
            (scheduler_step C (start_epoch (self s) + 1)
               (optimizer_step C (optimizer_zero_grad C (world s)))))) <> [] ->
  exists w',
    run s =
      ([EvZeroGrad; EvOptimizerStep;
        EvSchedulerStep (start_epoch (self s) + 1); EvLoggerInfo MsgRule;
        EvCall (CallTrainOneEpoch (start_epoch (self s)));
        EvLoggerInfo MsgTraining; EvModelTrain; EvIterLoader TrainLoader;
        EvMixForward; EvModelCall Live; EvMixCriterion;
        EvZeroGrad; EvBackward; EvOptimizerStep; EvEmaUpdate],
       Raise ZeroDivisionError,
       Build_state C (self s) w').
Proof.
  intros Hf Hlt Hne.
  set (s0 := Build_state C (self s)
               (scheduler_step C (start_epoch (self s) + 1)
                  (optimizer_step C (optimizer_zero_grad C (world s))))).
  destruct (train_one_epoch_raise (start_epoch (self s)) s0 Hf Hne)
    as [w' E].
  exists w'. unfold run. unfold bind at 1 2 3. unfold act, get_self. simpl.
  rewrite (py_range_cons _ _ Hlt). simpl for_each.
  unfold bind at 1. unfold run_epoch. unfold bind at 1 2 3.
  unfold act, logger_info, emit. simpl. fold s0. rewrite E. reflexivity.
Qed.

(** ** The epoch loop: updates, counter and configuration *)

Lemma filter_update_batch_steps {A : Type} (l : list A) :
  filter is_update_event (flat_map (fun _ => batch_steps) l) =
  List.concat (repeat update_block (List.length l)).
Proof.
  induction l as [|x l IH]; [reflexivity|]. simpl. rewrite IH. reflexivity.
Qed.

Lemma update_is_step (e : event) :
  is_update_event e = true -> is_step_event e = true.
Proof. destruct e; simpl; intros H; try discriminate; reflexivity. Qed.

Lemma concat_repeat_add {A : Type} (b : list A) (k1 k2 : nat) :
  List.concat (repeat b k1) ++ List.concat (repeat b k2) =
  List.concat (repeat b (k1 + k2)).
Proof. rewrite repeat_app, concat_app. reflexivity. Qed.

Lemma same_config_refl (t : Trainer) : same_config t t.
Proof. unfold same_config. repeat split. Qed.

Lemma same_config_trans (t1 t2 t3 : Trainer) :
  same_config t1 t2 -> same_config t2 t3 -> same_config t1 t3.
Proof.
  unfold same_config.
  intros [A1 [A2 [A3 [A4 [A5 [A6 A7]]]]]] [B1 [B2 [B3 [B4 [B5 [B6 B7]]]]]].
  repeat split; congruence.
Qed.

(** An epoch whose training returns: its update calls are those of the
    training, and it changes [log_iter] as the training did. *)
Lemma run_epoch_given_train (epoch : Z) (s : state C) evT tm s1 li :
  train_one_epoch epoch
    (Build_state C (self s) (scheduler_step C (epoch + 1) (world s))) =
    (evT, Ok tm, s1) ->
  self s1 = set_log_iter (self s) li ->
  exists evs s',
    run_epoch epoch s = (evs, Ok tt, s') /\
    filter is_update_event evs = filter is_update_event evT /\
    log_iter (self s') = li /\
    same_config (self s) (self s').
Proof.
  intros ET Hs1.
  destruct (run_epoch_after_train epoch s _ _ _ _ ET Hs1)
    as [evV [vm [w2 [evE [vem [w3 [EV [EE [_ [_ E]]]]]]]]]].
  assert (HV : evV = events_of (valid_one_epoch epoch false s1))
    by (rewrite EV; reflexivity).
  assert (HE : evE = events_of (valid_one_epoch epoch true
                                  (Build_state C (self s1) w2)))
    by (rewrite EE; reflexivity).
  do 2 eexists. split; [exact E|]. split; [|split].
  - rewrite !filter_app.
    rewrite HV, (proj2 (valid_one_epoch_quiet epoch false s1)).
    rewrite HE, (proj2 (valid_one_epoch_quiet epoch true _)).
    simpl. rewrite app_nil_r. reflexivity.
  - simpl. rewrite Hs1. reflexivity.
  - simpl. rewrite Hs1. unfold same_config. simpl. repeat split.
Qed.

Lemma run_epoch_updates (epoch : Z) (s : state C) :
  log_freq (self s) <> 0 ->
  exists evs s',
    run_epoch epoch s = (evs, Ok tt, s') /\
    filter is_update_event evs =
      List.concat
        (repeat update_block
           (List.length
              (fst (iter_loader C TrainLoader
                      (model_train C
                         (scheduler_step C (epoch + 1) (world s))))))) /\
    log_iter (self s') =
      log_iter (self s) +
      Z.of_nat
        (List.length
           (fst (iter_loader C TrainLoader
                   (model_train C
                      (scheduler_step C (epoch + 1) (world s)))))) /\
    same_config (self s) (self s').
Proof.
  intros Hf.
  destruct (train_one_epoch_run epoch
              (Build_state C (self s)
                 (scheduler_step C (epoch + 1) (world s))) Hf)
    as [evs [ls [accs [w1 [ET [_ [_ [Hst _]]]]]]]].
  destruct (run_epoch_given_train epoch s _ _ _ _ ET eq_refl)
    as [evs' [s' [E [Hu [Hli Hc]]]]].
  exists evs', s'. split; [exact E|].
  split; [|split; [exact Hli|exact Hc]].
  rewrite Hu, !filter_app. simpl. rewrite app_nil_r.
  rewrite <- (filter_filter_sub is_update_event is_step_event)
    by exact update_is_step.
  simpl in Hst. rewrite Hst. apply filter_update_batch_steps.
Qed.

(** The epoch loop over a training loader that yields [n] batches on every
    pass: [n] blocks of update calls and [n] iterations counted per epoch. *)
Lemma for_each_run_epoch_updates (n : nat) (l : list Z) :
  (forall w : World C,
     List.length (fst (iter_loader C TrainLoader w)) = n) ->
  forall s : state C,
  log_freq (self s) <> 0 ->
  exists evs s',
    for_each l run_epoch s = (evs, Ok tt, s') /\
    filter is_update_event evs =
      List.concat (repeat update_block (List.length l * n)) /\
    log_iter (self s') = log_iter (self s) + Z.of_nat (List.length l * n) /\
    same_config (self s) (self s').
Proof.
  intros Hn.
  induction l as [|epoch rest IH]; intros s Hf.
  - exists [], s. simpl. split; [reflexivity|]. split; [reflexivity|].
    split; [lia|apply same_config_refl].
  - destruct (run_epoch_updates epoch s Hf)
      as [ev1 [s1 [E1 [Hu1 [Hl1 Hc1]]]]].
    rewrite Hn in Hu1, Hl1.
    assert (Hf1 : log_freq (self s1) <> 0).
    { destruct Hc1 as [_ [_ [_ [_ [_ [_ H]]]]]]. congruence. }
    destruct (IH s1 Hf1) as [ev2 [s2 [E2 [Hu2 [Hl2 Hc2]]]]].
    exists (ev1 ++ ev2), s2.
    split; [|split; [|split]].
    + simpl. erewrite bind_ok; [reflexivity|exact E1|exact E2].
    + rewrite filter_app, Hu1, Hu2. apply concat_repeat_add.
    + simpl List.length. lia.
    + eapply same_config_trans; eassumption.
Qed.

(** X5: with a non-zero [log_freq] and a training loader that yields [n]
    batches on every pass, [run] returns, and the update calls of the whole
    run are the initial [zero_grad] and [step] followed by exactly
    [(max_epoch - start_epoch) * n] blocks [zero_grad, backward, step, EMA
    update], one per batch the training loader yielded ([0] epochs when
    [max_epoch <= start_epoch]); validation and logging add none.  When
    [run] returns, [log_iter] has advanced by exactly that number of
    batches. *)
Theorem run_updates_and_counter (n : nat) (s : state C) :
  log_freq (self s) <> 0 ->
  (forall w : World C,
     List.length (fst (iter_loader C TrainLoader w)) = n) ->
  result_of (run s) = Ok tt /\
  filter is_update_event (events_of (run s)) =
    [EvZeroGrad; EvOptimizerStep]
    ++ List.concat
         (repeat [EvZeroGrad; EvBackward; EvOptimizerStep; EvEmaUpdate]
            (Z.to_nat (max_epoch (self s) - start_epoch (self s)) * n))
  /\
  log_iter (self (state_of (run s))) =
    log_iter (self s) +
    Z.of_nat (Z.to_nat (max_epoch (self s) - start_epoch (self s)) * n).
Proof.
  intros Hf Hn.
  destruct (for_each_run_epoch_updates n
              (py_range (start_epoch (self s)) (max_epoch (self s))) Hn
              (Build_state C (self s)
                 (optimizer_step C (optimizer_zero_grad C (world s)))) Hf)
    as [evs [s' [E [Hu [Hl _]]]]].
  rewrite py_range_length in Hu, Hl.
  unfold run. unfold bind, act, get_self. simpl. rewrite E.
  unfold result_of, events_of, state_of. simpl.
  split; [reflexivity|]. split; [|exact Hl].
  rewrite Hu. reflexivity.
Qed.

(** The trainer after an epoch, whether the epoch returns or raises. *)
Lemma run_epoch_self (epoch : Z) (s : state C) :
  exists li b be,
    self (state_of (run_epoch epoch s)) =
      set_best (set_best (set_log_iter (self s) li) BestModel b)
        BestModelEma be.
Proof.
  set (s0 := Build_state C (self s) (scheduler_step C (epoch + 1) (world s))).
  destruct (train_one_epoch_self epoch s0) as [li Hli].
  destruct (train_one_epoch epoch s0) as [[evT [tm|e]] s1] eqn:ET.
  - unfold state_of in Hli. simpl in Hli.
    destruct (run_epoch_after_train epoch s _ _ _ _ ET Hli)
      as [evV [vm [w2 [evE [vem [w3 [_ [_ [_ [_ E]]]]]]]]]].
    rewrite E. unfold state_of. simpl snd. cbn [self]. rewrite Hli.
    do 3 eexists. reflexivity.
  - unfold state_of in Hli. simpl in Hli.
    exists li, (best_model_metric (self s)), (best_model_ema_metric (self s)).
    unfold run_epoch, bind, act, logger_info, emit. simpl.
    fold s0. rewrite ET. unfold state_of. simpl. rewrite Hli. reflexivity.
Qed.

(** X6: [run] never changes the configuration of the trainer: whether it
    returns or raises, [save_dir], [start_epoch], [max_epoch],
    [device_type], [profile_first], [enable_mix_precision] and [log_freq]
    are afterwards what they were; only [log_iter] and the two best metrics
    can differ. *)
Theorem run_keeps_configuration (s : state C) :
  same_config (self s) (self (state_of (run s))).
Proof.
  unfold run. unfold bind, act, get_self. simpl.
  set (s0 := Build_state C (self s)
               (optimizer_step C (optimizer_zero_grad C (world s)))).
  assert (Hbody : forall (x : Z) (st : state C),
            same_config (self s) (self st) ->
            same_config (self s) (self (state_of (run_epoch x st)))).
  { intros x st Hst. destruct (run_epoch_self x st) as [li [b [be E]]].
    rewrite E. eapply same_config_trans; [exact Hst|].
    unfold same_config. simpl. repeat split. }
  pose proof (for_each_state_invariant
                (fun st => same_config (self s) (self st)) run_epoch Hbody
                (py_range (start_epoch (self s)) (max_epoch (self s)))
                s0 (same_config_refl (self s))) as H.
  destruct (for_each (py_range (start_epoch (self s)) (max_epoch (self s)))
              run_epoch s0) as [[ev r] s'].
  exact H.
Qed.

(** ** Checkpoints and best metrics *)

Lemma valid_one_epoch_empty_accuracy (epoch : Z) (isEMA : bool)
    (s : state C) evs m s' :
  (forall w, fst (iter_loader C ValidLoader w) = []) ->
  valid_one_epoch epoch isEMA s = (evs, Ok m, s') ->
  Accuracy m = NaN.
Proof.
  intros He E.
  destruct (valid_one_epoch_run epoch isEMA s)
    as [ls [accs [w' [E' [_ Hall]]]]].
  rewrite He in Hall. inversion Hall; subst.
  rewrite E in E'. inversion E'. reflexivity.
Qed.

(** The one checkpoint of an epoch that returns, and the best metrics the
    epoch leaves. *)
Lemma run_epoch_checkpoint (epoch : Z) (s : state C) :
  log_freq (self s) <> 0 ->
  exists evs s' evV vm s2 evE vem s3,
    run_epoch epoch s = (evs, Ok tt, s') /\
    valid_one_epoch epoch false
      (state_of (train_one_epoch epoch
                   (Build_state C (self s)
                      (scheduler_step C (epoch + 1) (world s))))) =
      (evV, Ok vm, s2) /\
    valid_one_epoch epoch true s2 = (evE, Ok vem, s3) /\
    checkpoints evs =
      [(epoch,
        fgt (Accuracy vm) (best_model_metric (self s)),
        fgt (Accuracy vem) (best_model_ema_metric (self s)),
        best_model_metric (self s'),
        best_model_ema_metric (self s'))] /\
    best_model_metric (self s') =
      (if fgt (Accuracy vm) (best_model_metric (self s))
       then Accuracy vm else best_model_metric (self s)) /\
    best_model_ema_metric (self s') =
      (if fgt (Accuracy vem) (best_model_ema_metric (self s))
       then Accuracy vem else best_model_ema_metric (self s)) /\
    log_freq (self s') = log_freq (self s).
Proof.
  intros Hf.
  destruct (train_one_epoch_run epoch
              (Build_state C (self s)
                 (scheduler_step C (epoch + 1) (world s))) Hf)
    as [evs [ls [accs [w1 [ET [_ [_ [_ HphT]]]]]]]].
  destruct (run_epoch_after_train epoch s _ _ _ _ ET eq_refl)
    as [evV [vm [w2 [evE [vem [w3 [EV [EE [HphV [HphE E]]]]]]]]]].
  rewrite ET. unfold state_of at 1. cbn [snd].
  do 8 eexists.
  split; [exact E|]. split; [exact EV|]. split; [exact EE|].
  split; [|split; [reflexivity|split; reflexivity]].
  rewrite !checkpoints_app.
  rewrite (checkpoints_nil_of_phases evV)
    by (rewrite HphV; simpl; intros e [H|[]]; discriminate).
  rewrite (checkpoints_nil_of_phases evE)
    by (rewrite HphE; simpl; intros e [H|[]]; discriminate).
  rewrite (checkpoints_nil_of_phases evs)
    by (rewrite HphT; intros e []).
  reflexivity.
Qed.

(** X7: what [save_checkpoint] is given is what the trainer holds.  In an
    epoch entered with a non-zero [log_freq], the one checkpoint written
    carries the epoch index and, as best metrics, the values of
    [best_model_metric] and [best_model_ema_metric] after this epoch's
    comparisons; so a trainer constructed with these two values as keyword
    arguments (a resumed run) starts with the same best metrics as the
    trainer that wrote the checkpoint has after the epoch. *)
Theorem checkpoint_carries_best_metrics (epoch : Z) (s : state C) :
  log_freq (self s) <> 0 ->
  exists is_best is_ema_best b be,
    result_of (run_epoch epoch s) = Ok tt /\
    checkpoints (events_of (run_epoch epoch s)) =
      [(epoch, is_best, is_ema_best, b, be)] /\
    b = best_model_metric (self (state_of (run_epoch epoch s))) /\
    be = best_model_ema_metric (self (state_of (run_epoch epoch s))) /\
    forall dir e0 e1 dev pf mp lf,
      best_model_metric
        (Trainer_init dir e0 e1 dev pf mp lf (Some b) (Some be)) =
        best_model_metric (self (state_of (run_epoch epoch s))) /\
      best_model_ema_metric
        (Trainer_init dir e0 e1 dev pf mp lf (Some b) (Some be)) =
        best_model_ema_metric (self (state_of (run_epoch epoch s))).
Proof.
  intros Hf.
  destruct (run_epoch_checkpoint epoch s Hf)
    as [evs [s' [evV [vm [s2 [evE [vem [s3 [E [_ [_ [Hc _]]]]]]]]]]]].
  rewrite E. unfold result_of, events_of, state_of. cbn [fst snd].
  do 4 eexists. split; [reflexivity|]. split; [exact Hc|].
  split; [reflexivity|]. split; [reflexivity|].
  intros. split; reflexivity.
Qed.

Lemma for_each_no_validation_data (b be : pyfloat) (l : list Z) :
  (forall w, fst (iter_loader C ValidLoader w) = []) ->
  forall s : state C,
  log_freq (self s) <> 0 ->
  best_model_metric (self s) = b ->
  best_model_ema_metric (self s) = be ->
  exists evs s',
    for_each l run_epoch s = (evs, Ok tt, s') /\
    checkpoints evs = map (fun epoch => (epoch, false, false, b, be)) l /\
    best_model_metric (self s') = b /\
    best_model_ema_metric (self s') = be.
Proof.
  intros He. induction l as [|epoch rest IH]; intros s Hf Hb Hbe.
  - exists [], s. repeat split; assumption.
  - destruct (run_epoch_checkpoint epoch s Hf)
      as [ev1 [s1 [evV [vm [s2 [evE [vem [s3
           [E1 [EV [EE [Hc [Hb1 [Hbe1 Hf1]]]]]]]]]]]]]].
    rewrite (valid_one_epoch_empty_accuracy _ _ _ _ _ _ He EV) in *.
    rewrite (valid_one_epoch_empty_accuracy _ _ _ _ _ _ He EE) in *.
    rewrite !fgt_nan_l in *.
    destruct (IH s1) as [ev2 [s' [E2 [Hc2 [Hb2 Hbe2]]]]];
      [congruence|congruence|congruence|].
    exists (ev1 ++ ev2), s'. split; [|split; [|split; assumption]].
    + simpl. erewrite bind_ok; [reflexivity|exact E1|exact E2].
    + rewrite checkpoints_app, Hc, Hc2. simpl. do 2 f_equal; congruence.
Qed.

(** X8: without validation data no checkpoint is ever marked best.  When
    the validation loader yields no batch (and [log_freq] is not 0), [run]
    returns having written one checkpoint per epoch of
    [range(start_epoch, max_epoch)], each with [is_best] and [is_ema_best]
    false and with the best metrics the trainer started from, which [run]
    leaves unchanged: the NaN accuracy of an empty validation is never
    greater than a stored best. *)
Theorem run_without_validation_data (s : state C) :
  (forall w, fst (iter_loader C ValidLoader w) = []) ->
  log_freq (self s) <> 0 ->
  result_of (run s) = Ok tt /\
  checkpoints (events_of (run s)) =
    map (fun epoch =>
           (epoch, false, false,
            best_model_metric (self s), best_model_ema_metric (self s)))
      (py_range (start_epoch (self s)) (max_epoch (self s))) /\
  best_model_metric (self (state_of (run s))) = best_model_metric (self s) /\
  best_model_ema_metric (self (state_of (run s))) =
    best_model_ema_metric (self s).
Proof.
  intros He Hf.
  destruct (for_each_no_validation_data
              (best_model_metric (self s)) (best_model_ema_metric (self s))
              (py_range (start_epoch (self s)) (max_epoch (self s))) He
              (Build_state C (self s)
                 (optimizer_step C (optimizer_zero_grad C (world s))))
              Hf eq_refl eq_refl)
    as [evs [s' [E [Hc [Hb Hbe]]]]].
  unfold run. unfold bind, act, get_self. simpl. rewrite E.
  unfold result_of, events_of, state_of. simpl.
  repeat split; assumption.
Qed.

(** X9: a tie is not a new best.  Comparing the same accuracy against the
    same best metric a second time, right after a first comparison, always
    answers false and leaves the trainer as the first comparison left it:
    an accuracy that has just become the stored best, or that equals it,
    never marks a further checkpoint as best. *)
Theorem check_best_twice (slot : best_slot) (acc : pyfloat) (s : state C) :
  check_best slot acc (state_of (check_best slot acc s)) =
    ([EvCompareBest slot acc
        (get_best (self (state_of (check_best slot acc s))) slot)],
     Ok false,
     state_of (check_best slot acc s)).
Proof.
  rewrite check_best_run. rewrite !check_best_run.
  unfold state_of. cbn [snd self world].
  destruct (fgt acc (get_best (self s) slot)) eqn:E.
  - destruct slot; simpl; rewrite fgt_irrefl; reflexivity.
  - rewrite E. destruct s; reflexivity.
Qed.

(** ** No training data *)

Lemma run_epoch_without_training_data (epoch : Z) (s : state C) :
  (forall w, fst (iter_loader C TrainLoader w) = []) ->
  exists evs s',
    run_epoch epoch s = (evs, Ok tt, s') /\
    phases evs = epoch_phases epoch /\
    filter is_update_event evs = [] /\
    log_iter (self s') = log_iter (self s).
Proof.
  intros He.
  destruct (train_one_epoch_empty epoch
              (Build_state C (self s)
                 (scheduler_step C (epoch + 1) (world s))) (He _))
    as [w1 ET].
  assert (Hs1 : self (Build_state C (self s) w1) =
                set_log_iter (self s) (log_iter (self s))).
  { simpl. destruct (self s). reflexivity. }
  destruct (run_epoch_after_train epoch s _ _ _ _ ET Hs1)
    as [evV [vm [w2 [evE [vem [w3 [_ [_ [HphV [HphE E]]]]]]]]]].
  destruct (run_epoch_given_train epoch s _ _ _ _ ET Hs1)
    as [evs [s' [E' [Hu [Hli _]]]]].
  exists evs, s'. split; [exact E'|]. split; [|split; assumption].
  rewrite E in E'. injection E' as Hevs Hs'. rewrite <- Hevs.
  unfold phases in *. simpl. rewrite !flat_map_app, HphV, HphE.
  reflexivity.
Qed.

Lemma for_each_without_training_data (l : list Z) :
  (forall w, fst (iter_loader C TrainLoader w) = []) ->
  forall s : state C,
  exists evs s',
    for_each l run_epoch s = (evs, Ok tt, s') /\
    phases evs = flat_map epoch_phases l /\
    filter is_update_event evs = [] /\
    log_iter (self s') = log_iter (self s).
Proof.
  intros He. induction l as [|epoch rest IH]; intros s.
  - exists [], s. repeat split.
  - destruct (run_epoch_without_training_data epoch s He)
      as [ev1 [s1 [E1 [Hp1 [Hu1 Hl1]]]]].
    destruct (IH s1) as [ev2 [s2 [E2 [Hp2 [Hu2 Hl2]]]]].
    exists (ev1 ++ ev2), s2. split; [|split; [|split]].
    + simpl. erewrite bind_ok; [reflexivity|exact E1|exact E2].
    + rewrite phases_app, Hp1, Hp2. reflexivity.
    + rewrite filter_app, Hu1, Hu2. reflexivity.
    + congruence.
Qed.

(** X10: a training loader that yields no batch never makes [run] raise,
    whatever [log_freq] is, 0 included: the logging test is only reached
    inside the loop over batches.  [run] then goes through every epoch and
    all its phases (scheduler step, both validations, checkpoint, epoch
    log), makes no update call beyond the initial [zero_grad] and [step],
    and leaves [log_iter] where it was. *)
Theorem run_without_training_data (s : state C) :
  (forall w, fst (iter_loader C TrainLoader w) = []) ->
  result_of (run s) = Ok tt /\
  phases (events_of (run s)) =
    flat_map
      (fun epoch =>
         [PhSchedulerStep (epoch + 1); PhTrain epoch;
          PhValid epoch false; PhValid epoch true; PhGc;
          PhCompare BestModel; PhCompare BestModelEma;
          PhSave epoch; PhLog epoch])
      (py_range (start_epoch (self s)) (max_epoch (self s))) /\
  filter is_update_event (events_of (run s)) =
    [EvZeroGrad; EvOptimizerStep] /\
  log_iter (self (state_of (run s))) = log_iter (self s).
Proof.
  intros He.
  destruct (for_each_without_training_data
              (py_range (start_epoch (self s)) (max_epoch (self s))) He
              (Build_state C (self s)
                 (optimizer_step C (optimizer_zero_grad C (world s)))))
    as [evs [s' [E [Hp [Hu Hl]]]]].
  unfold run. unfold bind, act, get_self. simpl. rewrite E.
  unfold result_of, events_of, state_of. simpl.
  split; [reflexivity|]. split; [exact Hp|]. split; [|exact Hl].
  rewrite Hu. reflexivity.
Qed.

(** ** The epoch log *)

(** X11: in an epoch entered with a non-zero [log_freq], [write_log] is the
    last thing [run] does before the closing rule of the epoch.  It writes
    seven scalars to the metrics sink, all at step [epoch]: the learning
    rate read after both validations, then the accuracy and loss returned
    by this epoch's [train_one_epoch], by [valid_one_epoch(epoch)] and by
    [valid_one_epoch(epoch, isEMA=True)], under the tags Train/..,
    Valid/.. and Valid/EMA_.. in that order. *)
Theorem epoch_log_of_run_epoch (epoch : Z) (s : state C) :
  log_freq (self s) <> 0 ->
  exists evT tm s1 evV vm s2 evE vem s3 before,
    train_one_epoch epoch
      (Build_state C (self s) (scheduler_step C (epoch + 1) (world s))) =
      (evT, Ok tm, s1) /\
    valid_one_epoch epoch false s1 = (evV, Ok vm, s2) /\
    valid_one_epoch epoch true s2 = (evE, Ok vem, s3) /\
    events_of (run_epoch epoch s) =
      before ++
      [EvCall (CallWriteLog epoch);
       EvAddScalar "Learing rate" (optimizer_lr C (world s3)) epoch;
       EvAddScalar "Train/Accuracy" (Accuracy tm) epoch;
       EvAddScalar "Train/Loss" (Loss tm) epoch;
       EvAddScalar "Valid/Accuracy" (Accuracy vm) epoch;
       EvAddScalar "Valid/Loss" (Loss vm) epoch;
       EvAddScalar "Valid/EMA_Accuracy" (Accuracy vem) epoch;
       EvAddScalar "Valid/EMA_Loss" (Loss vem) epoch;
       EvLoggerInfo MsgRule].
Proof.
  intros Hf.
  destruct (train_one_epoch_run epoch
              (Build_state C (self s)
                 (scheduler_step C (epoch + 1) (world s))) Hf)
    as [evs [ls [accs [w1 [ET _]]]]].
  destruct (run_epoch_after_train epoch s _ _ _ _ ET eq_refl)
    as [evV [vm [w2 [evE [vem [w3 [EV [EE [_ [_ E]]]]]]]]]].
  do 9 eexists.
  match type of E with
  | _ = (?hd ++ ?a ++ ?b ++ ?c ++ ?g :: ?c1 :: ?c2 :: ?sv :: _, _, _) =>
      exists (hd ++ a ++ b ++ c ++ [g; c1; c2; sv])
  end.
  split; [exact ET|]. split; [exact EV|]. split; [exact EE|].
  rewrite E. unfold events_of. cbn [fst].
  rewrite <- !app_assoc. reflexivity.
Qed.

End Coverage.

(** * The optimizer state moved by [Trainer.__init__] *)

Module OptimizerStateFacts.

Import OptimizerState.

Lemma dict_set_present (k : string) (v v0 : value) (d1 d2 : dict) :
  ~ In k (map fst d1) ->
  dict_set k v (d1 ++ (k, v0) :: d2) = d1 ++ (k, v) :: d2.
Proof.
  induction d1 as [|[k1 v1] d1 IH]; intros Hnot; simpl.
  - rewrite String.eqb_refl. reflexivity.
  - destruct (String.eqb k1 k) eqn:E.
    + apply String.eqb_eq in E. exfalso. apply Hnot. left. exact E.
    + rewrite IH; [reflexivity|]. intros Hin. apply Hnot. right. exact Hin.
Qed.

Lemma move_item_present (done rest : dict) (k : string) (v : value) :
  ~ In k (map fst done) ->
  move_item (done ++ (k, v) :: rest) (k, v) =
  (done ++ [(k, value_to_cuda v)]) ++ rest.
Proof.
  intros Hnot. unfold move_item. simpl. rewrite <- app_assoc. simpl.
  destruct v as [t|z]; [|reflexivity].
  apply dict_set_present. exact Hnot.
Qed.

Lemma fold_move_items (items : dict) :
  forall done : dict,
  NoDup (map fst (done ++ items)) ->
  fold_left move_item items (done ++ items) =
  done ++ map (fun item => (fst item, value_to_cuda (snd item))) items.
Proof.
  induction items as [|[k v] rest IH]; intros done Hnd.
  - reflexivity.
  - simpl fold_left. rewrite move_item_present.
    + rewrite IH.
      * rewrite <- app_assoc. reflexivity.
      * rewrite <- app_assoc. simpl.
        rewrite map_app in *. simpl in *. exact Hnd.
    + rewrite map_app in Hnd. simpl in Hnd.
      apply NoDup_remove_2 in Hnd. intros Hin. apply Hnd.
      apply in_or_app. left. exact Hin.
Qed.

Lemma state_to_cuda_map (d : dict) :
  NoDup (map fst d) ->
  state_to_cuda d =
  map (fun item => (fst item, value_to_cuda (snd item))) d.
Proof. intros Hnd. exact (fold_move_items d [] Hnd). Qed.

Lemma value_to_cuda_twice (v : value) :
  value_to_cuda (value_to_cuda v) = value_to_cuda v.
Proof. destruct v; reflexivity. Qed.

Lemma move_optimizer_state_map (device_type' : string)
    (st : optimizer_state) :
  well_formed st ->
  String.eqb device_type' "cpu" = false ->
  move_optimizer_state device_type' st =
    map (fun ps =>
           (fst ps,
            map (fun item => (fst item, value_to_cuda (snd item)))
              (snd ps)))
      st.
Proof.
  intros Hwf E. unfold move_optimizer_state. rewrite E.
  apply map_ext_in. intros [p d] Hin. simpl. f_equal.
  apply state_to_cuda_map.
  unfold well_formed in Hwf. rewrite Forall_forall in Hwf.
  exact (Hwf (p, d) Hin).
Qed.

(** X12: what the loop of [__init__] does to the optimizer state.  On the
    device type cpu the state is left as it is.  On any other device type,
    every state dict keeps its keys, in their order, and each value is
    replaced in place: a tensor by the tensor with the same contents on the
    device cuda, while a value that is not a tensor (a step count, say) is
    left untouched.  No parameter is added, dropped or reordered. *)
Theorem optimizer_state_moved (device_type' : string) (st : optimizer_state) :
  well_formed st ->
  (String.eqb device_type' "cpu" = true ->
   move_optimizer_state device_type' st = st) /\
  (String.eqb device_type' "cpu" = false ->
   move_optimizer_state device_type' st =
     map (fun ps =>
            (fst ps,
             map (fun item => (fst item, value_to_cuda (snd item)))
               (snd ps)))
       st).
Proof.
  intros Hwf. split; intros E.
  - unfold move_optimizer_state. rewrite E. reflexivity.
  - apply move_optimizer_state_map; assumption.
Qed.

Lemma moved_state_well_formed (st : optimizer_state) :
  well_formed st ->
  well_formed
    (map (fun ps =>
            (fst ps,
             map (fun item => (fst item, value_to_cuda (snd item)))
               (snd ps)))
       st).
Proof.
  unfold well_formed. intros Hwf. rewrite Forall_forall in *.
  intros ps Hin. apply in_map_iff in Hin. destruct Hin as [[p d] [<- Hin]].
  simpl. rewrite map_map. simpl. exact (Hwf (p, d) Hin).
Qed.

(** X13: on a device type other than cpu the move is complete and
    idempotent: afterwards every tensor of every state dict is on the
    device cuda, and moving the state a second time (constructing a second
    trainer on the same optimizer) changes nothing. *)
Theorem optimizer_state_move_idempotent (device_type' : string)
    (st : optimizer_state) :
  well_formed st ->
  String.eqb device_type' "cpu" = false ->
  Forall
    (fun ps =>
       Forall
         (fun item =>
            match snd item with
            | VTensor t => device t = "cuda"%string
            | VOther _ => True
            end)
         (snd ps))
    (move_optimizer_state device_type' st) /\
  move_optimizer_state device_type' (move_optimizer_state device_type' st) =
    move_optimizer_state device_type' st.
Proof.
  intros Hwf E. rewrite (move_optimizer_state_map _ _ Hwf E). split.
  - apply Forall_forall. intros ps Hin. apply in_map_iff in Hin.
    destruct Hin as [[p d] [<- _]]. simpl.
    apply Forall_forall. intros item Hin. apply in_map_iff in Hin.
    destruct Hin as [[k v] [<- _]]. simpl. destruct v; simpl; auto.
  - rewrite (move_optimizer_state_map _ _ (moved_state_well_formed _ Hwf) E).
    rewrite map_map. apply map_ext. intros [p d]. simpl. f_equal.
    rewrite map_map. apply map_ext. intros [k v]. simpl.
    rewrite value_to_cuda_twice. reflexivity.
Qed.

End OptimizerStateFacts.

(** * The further properties on concrete cases *)

(** The demo epoch logs both of its iterations, at steps 0 and 1. *)
Example demo_scalar_steps :
  scalar_steps "Train/Accuracy_iter"
    (events_of (train_one_epoch 0 Demo.start)) = [0; 1].
Proof. reflexivity. Qed.

(** The example optimizer state after the move to a GPU. *)
Example example_state_moved :
  OptimizerState.move_optimizer_state "cuda:0" OptimizerState.example_state =
    [(1, [("step"%string, OptimizerState.VOther 3);
          ("exp_avg"%string,
           OptimizerState.VTensor
             {| OptimizerState.data := 10;
                OptimizerState.device := "cuda"%string |});
          ("exp_avg_sq"%string,
           OptimizerState.VTensor
             {| OptimizerState.data := 11;
                OptimizerState.device := "cuda"%string |})]);
     (2, [("step"%string, OptimizerState.VOther 3);
          ("exp_avg"%string,
           OptimizerState.VTensor
             {| OptimizerState.data := 20;
                OptimizerState.device := "cuda"%string |})])].
Proof. reflexivity. Qed.

Lemma train_one_epoch_advances_log_iter_witness :
  log_freq (self Demo.start) <> 0 /\
  (exists m, result_of (train_one_epoch 0 Demo.start) = Ok m) /\
  self (state_of (train_one_epoch 0 Demo.start)) =
    set_log_iter (self Demo.start)
      (log_iter (self Demo.start) +
       Z.of_nat
         (List.length
            (fst (iter_loader (Demo.collaborators Demo.loader) TrainLoader
                    (model_train (Demo.collaborators Demo.loader)
                       (world Demo.start)))))).
Proof.
  assert (Hf : log_freq (self Demo.start) <> 0) by (simpl; lia).
  split; [exact Hf|].
  exact (train_one_epoch_advances_log_iter 0 Demo.start Hf).
Defined.

Lemma train_one_epoch_logging_cadence_witness :
  log_freq (self Demo.start) <> 0 /\
  scalar_steps "Train/Accuracy_iter"
    (events_of (train_one_epoch 0 Demo.start)) =
    filter (fun i => i mod log_freq (self Demo.start) =? 0)
      (py_range (log_iter (self Demo.start))
         (log_iter (self Demo.start) +
          Z.of_nat
            (List.length
               (fst (iter_loader (Demo.collaborators Demo.loader)
                       TrainLoader
                       (model_train (Demo.collaborators Demo.loader)
                          (world Demo.start))))))) /\
  scalar_steps "Train/Loss_iter"
    (events_of (train_one_epoch 0 Demo.start)) =
    filter (fun i => i mod log_freq (self Demo.start) =? 0)
      (py_range (log_iter (self Demo.start))
         (log_iter (self Demo.start) +
          Z.of_nat
            (List.length
               (fst (iter_loader (Demo.collaborators Demo.loader)
                       TrainLoader
                       (model_train (Demo.collaborators Demo.loader)
                          (world Demo.start))))))).
Proof.
  assert (Hf : log_freq (self Demo.start) <> 0) by (simpl; lia).
  split; [exact Hf|].
  exact (train_one_epoch_logging_cadence 0 Demo.start Hf).
Defined.

Lemma run_raises_on_zero_log_freq_witness :
  log_freq (self Cases.start_log_freq_zero) = 0 /\
  start_epoch (self Cases.start_log_freq_zero)
    < max_epoch (self Cases.start_log_freq_zero) /\
  fst (iter_loader (Demo.collaborators Demo.loader) TrainLoader
         (model_train (Demo.collaborators Demo.loader)
            (scheduler_step (Demo.collaborators Demo.loader)
               (start_epoch (self Cases.start_log_freq_zero) + 1)
               (optimizer_step (Demo.collaborators Demo.loader)
                  (optimizer_zero_grad (Demo.collaborators Demo.loader)
                     (world Cases.start_log_freq_zero)))))) <> [] /\
  exists w',
    run Cases.start_log_freq_zero =
      ([EvZeroGrad; EvOptimizerStep;
        EvSchedulerStep (start_epoch (self Cases.start_log_freq_zero) + 1);
        EvLoggerInfo MsgRule;
        EvCall
          (CallTrainOneEpoch (start_epoch (self Cases.start_log_freq_zero)));
        EvLoggerInfo MsgTraining; EvModelTrain; EvIterLoader TrainLoader;
        EvMixForward; EvModelCall Live; EvMixCriterion;
        EvZeroGrad; EvBackward; EvOptimizerStep; EvEmaUpdate],
       Raise ZeroDivisionError,
       Build_state (Demo.collaborators Demo.loader)
         (self Cases.start_log_freq_zero) w').
Proof.
  assert (Hf : log_freq (self Cases.start_log_freq_zero) = 0)
    by reflexivity.
  assert (Hlt : start_epoch (self Cases.start_log_freq_zero)
                < max_epoch (self Cases.start_log_freq_zero))
    by (simpl; lia).
  assert (Hne : fst (iter_loader (Demo.collaborators Demo.loader)
                       TrainLoader
                       (model_train (Demo.collaborators Demo.loader)
                          (scheduler_step (Demo.collaborators Demo.loader)
                             (start_epoch (self Cases.start_log_freq_zero)
                              + 1)
                             (optimizer_step
                                (Demo.collaborators Demo.loader)
                                (optimizer_zero_grad
                                   (Demo.collaborators Demo.loader)
                                   (world Cases.start_log_freq_zero))))))
                <> []) by discriminate.
  split; [exact Hf|]. split; [exact Hlt|]. split; [exact Hne|].
  exact (run_raises_on_zero_log_freq Cases.start_log_freq_zero Hf Hlt Hne).
Defined.

Lemma run_updates_and_counter_witness :
  log_freq (self Demo.start) <> 0 /\
  (forall w : Z,
     List.length
       (fst (iter_loader (Demo.collaborators Demo.loader) TrainLoader w)) =
     2%nat) /\
  result_of (run Demo.start) = Ok tt /\
  filter is_update_event (events_of (run Demo.start)) =
    [EvZeroGrad; EvOptimizerStep]
    ++ List.concat
         (repeat [EvZeroGrad; EvBackward; EvOptimizerStep; EvEmaUpdate] 4)
  /\
  log_iter (self (state_of (run Demo.start))) = 4.
Proof.
  assert (Hf : log_freq (self Demo.start) <> 0) by (simpl; lia).
  assert (Hn : forall w : Z,
            List.length
              (fst (iter_loader (Demo.collaborators Demo.loader)
                      TrainLoader w)) = 2%nat)
    by (intros w; reflexivity).
  split; [exact Hf|]. split; [exact Hn|].
  exact (run_updates_and_counter 2 Demo.start Hf Hn).
Defined.

Lemma checkpoint_carries_best_metrics_witness :
  log_freq (self Demo.start) <> 0 /\
  exists is_best is_ema_best b be,
    result_of (run_epoch 0 Demo.start) = Ok tt /\
    checkpoints (events_of (run_epoch 0 Demo.start)) =
      [(0, is_best, is_ema_best, b, be)] /\
    b = best_model_metric (self (state_of (run_epoch 0 Demo.start))) /\
    be = best_model_ema_metric (self (state_of (run_epoch 0 Demo.start))) /\
    forall dir e0 e1 dev pf mp lf,
      best_model_metric
        (Trainer_init dir e0 e1 dev pf mp lf (Some b) (Some be)) =
        best_model_metric (self (state_of (run_epoch 0 Demo.start))) /\
      best_model_ema_metric
        (Trainer_init dir e0 e1 dev pf mp lf (Some b) (Some be)) =
        best_model_ema_metric (self (state_of (run_epoch 0 Demo.start))).
Proof.
  assert (Hf : log_freq (self Demo.start) <> 0) by (simpl; lia).
  split; [exact Hf|].
  exact (checkpoint_carries_best_metrics 0 Demo.start Hf).
Defined.

Lemma run_without_validation_data_witness :
  (forall w,
     fst (iter_loader (Demo.collaborators Cases.no_validation_loader)
            ValidLoader w) = []) /\
  log_freq (self Cases.start_no_validation) <> 0 /\
  result_of (run Cases.start_no_validation) = Ok tt /\
  checkpoints (events_of (run Cases.start_no_validation)) =
    map (fun epoch =>
           (epoch, false, false,
            best_model_metric (self Cases.start_no_validation),
            best_model_ema_metric (self Cases.start_no_validation)))
      (py_range (start_epoch (self Cases.start_no_validation))
         (max_epoch (self Cases.start_no_validation))) /\
  best_model_metric (self (state_of (run Cases.start_no_validation))) =
    best_model_metric (self Cases.start_no_validation) /\
  best_model_ema_metric (self (state_of (run Cases.start_no_validation))) =
    best_model_ema_metric (self Cases.start_no_validation).
Proof.
  assert (He : forall w,
            fst (iter_loader (Demo.collaborators Cases.no_validation_loader)
                   ValidLoader w) = []) by (intros w; reflexivity).
  assert (Hf : log_freq (self Cases.start_no_validation) <> 0)
    by (simpl; lia).
  split; [exact He|]. split; [exact Hf|].
  exact (run_without_validation_data Cases.start_no_validation He Hf).
Defined.

Lemma run_without_training_data_witness :
  (forall w,
     fst (iter_loader (Demo.collaborators Demo.empty_loader)
            TrainLoader w) = []) /\
  log_freq (self Cases.start_log_freq_zero_empty) = 0 /\
  result_of (run Cases.start_log_freq_zero_empty) = Ok tt /\
  phases (events_of (run Cases.start_log_freq_zero_empty)) =
    flat_map
      (fun epoch =>
         [PhSchedulerStep (epoch + 1); PhTrain epoch;
          PhValid epoch false; PhValid epoch true; PhGc;
          PhCompare BestModel; PhCompare BestModelEma;
          PhSave epoch; PhLog epoch])
      (py_range (start_epoch (self Cases.start_log_freq_zero_empty))
         (max_epoch (self Cases.start_log_freq_zero_empty))) /\
  filter is_update_event (events_of (run Cases.start_log_freq_zero_empty)) =
    [EvZeroGrad; EvOptimizerStep] /\
  log_iter (self (state_of (run Cases.start_log_freq_zero_empty))) =
    log_iter (self Cases.start_log_freq_zero_empty).
Proof.
  assert (He : forall w,
            fst (iter_loader (Demo.collaborators Demo.empty_loader)
                   TrainLoader w) = []) by (intros w; reflexivity).
  split; [exact He|]. split; [reflexivity|].
  exact (run_without_training_data Cases.start_log_freq_zero_empty He).
Defined.

Lemma epoch_log_of_run_epoch_witness :
  log_freq (self Demo.start) <> 0 /\
  exists evT tm s1 evV vm s2 evE vem s3 before,
    train_one_epoch 0
      (Build_state (Demo.collaborators Demo.loader) (self Demo.start)
         (scheduler_step (Demo.collaborators Demo.loader) (0 + 1)
            (world Demo.start))) =
      (evT, Ok tm, s1) /\
    valid_one_epoch 0 false s1 = (evV, Ok vm, s2) /\
    valid_one_epoch 0 true s2 = (evE, Ok vem, s3) /\
    events_of (run_epoch 0 Demo.start) =
      before ++
      [EvCall (CallWriteLog 0);
       EvAddScalar "Learing rate"
         (optimizer_lr (Demo.collaborators Demo.loader) (world s3)) 0;
       EvAddScalar "Train/Accuracy" (Accuracy tm) 0;
       EvAddScalar "Train/Loss" (Loss tm) 0;
       EvAddScalar "Valid/Accuracy" (Accuracy vm) 0;
       EvAddScalar "Valid/Loss" (Loss vm) 0;
       EvAddScalar "Valid/EMA_Accuracy" (Accuracy vem) 0;
       EvAddScalar "Valid/EMA_Loss" (Loss vem) 0;
       EvLoggerInfo MsgRule].
Proof.
  assert (Hf : log_freq (self Demo.start) <> 0) by (simpl; lia).
  split; [exact Hf|].
  exact (epoch_log_of_run_epoch 0 Demo.start Hf).
Defined.

Lemma optimizer_state_moved_witness :
  OptimizerState.well_formed OptimizerState.example_state /\
  String.eqb "cuda:0" "cpu" = false /\
  OptimizerState.move_optimizer_state "cuda:0" OptimizerState.example_state =
    map (fun ps =>
           (fst ps,
            map (fun item =>
                   (fst item, OptimizerState.value_to_cuda (snd item)))
              (snd ps)))
      OptimizerState.example_state.
Proof.
  assert (Hwf : OptimizerState.well_formed OptimizerState.example_state).
  { repeat constructor; simpl; intuition discriminate. }
  split; [exact Hwf|]. split; [reflexivity|].
  exact (proj2 (OptimizerStateFacts.optimizer_state_moved "cuda:0"
                  OptimizerState.example_state Hwf) eq_refl).
Defined.

Lemma optimizer_state_move_idempotent_witness :
  OptimizerState.well_formed OptimizerState.example_state /\
  String.eqb "cuda:0" "cpu" = false /\
  OptimizerState.move_optimizer_state "cuda:0"
    (OptimizerState.move_optimizer_state "cuda:0"
       OptimizerState.example_state) =
    OptimizerState.move_optimizer_state "cuda:0"
      OptimizerState.example_state.
Proof.
  assert (Hwf : OptimizerState.well_formed OptimizerState.example_state).
  { repeat constructor; simpl; intuition discriminate. }
  split; [exact Hwf|]. split; [reflexivity|].
  exact (proj2 (OptimizerStateFacts.optimizer_state_move_idempotent "cuda:0"
                  OptimizerState.example_state Hwf eq_refl)).
Defined.
